(** * node-alexa-smapi: request shaping, response normalisation and the
      completion pollers of the conformance suite

    The development follows the two source files:
    - [index.js]: the client factory [alexaSMAPI], its [rest] adapter and
      the operation catalogue;
    - the mocha suite ([part_000]): [errorSummary], [retry],
      [waitOnCertification], [waitOnSkill], [waitOnModel] and the tests
      that run them under [this.retries(MAX_RETRIES)].

    JavaScript values are embedded as a first-order datatype, property
    access and the few built-ins the code calls are functions over it, and
    effectful code (console output, sleeping, exceptions) lives in a small
    trace-and-exception monad. *)

From Stdlib Require Import String Ascii List ZArith Lia Bool DecimalString.
Import ListNotations.
Open Scope string_scope.
Set Warnings "-register-all".

(* ================================================================== *)
(** ** JavaScript values *)
(* ================================================================== *)

Module JS.

(** Values the client and the suite handle: what [JSON.parse] yields,
    [undefined], [Error] instances, and the built-in members an object
    inherits from [Object.prototype].  Numbers are the integers (status
    codes, lengths, milliseconds); fractional numbers and [NaN] do not
    occur in the code under study. *)
Inductive Value : Type :=
| VUndefined
| VNull
| VBool (b : bool)
| VNum (n : Z)
| VStr (s : string)
| VArr (elems : list Value)
| VObj (props : list (string * Value))
| VError (name message : string)
| VNative (member : string).

(** A plain object is its list of own enumerable properties in insertion
    order; a key occurs at most once in an object built by the functions
    below, and lookups take the first occurrence. *)
Definition Props := list (string * Value).

Fixpoint lookup (k : string) (o : Props) : option Value :=
  match o with
  | [] => None
  | (k', v) :: rest => if String.eqb k k' then Some v else lookup k rest
  end.

(** [o[k] = v] on a plain object: an existing key keeps its position. *)
Fixpoint store (k : string) (v : Value) (o : Props) : Props :=
  match o with
  | [] => [(k, v)]
  | (k', v') :: rest =>
      if String.eqb k k' then (k', v) :: rest else (k', v') :: store k v rest
  end.

(** [delete o[k]] on a plain object. *)
Definition remove (k : string) (o : Props) : Props :=
  filter (fun kv => negb (String.eqb k (fst kv))) o.

Definition nat_to_string (n : nat) : string :=
  NilZero.string_of_uint (Nat.to_uint n).

Definition Z_to_string (n : Z) : string :=
  NilZero.string_of_int (Z.to_int n).

Fixpoint join (sep : string) (l : list string) : string :=
  match l with
  | [] => ""
  | [s] => s
  | s :: rest => s ++ sep ++ join sep rest
  end.

(** [String(v)], the conversion a template literal and a computed property
    key apply, for the values it converts without running code of the
    value's own: the primitives, and objects and arrays that own no
    [toString].  On an object that owns a [toString] the conversion of
    JavaScript calls it, or throws a [TypeError] when it is not callable;
    what prints such a value is stated for [printable] values only. *)
Fixpoint toStr (v : Value) : string :=
  match v with
  | VUndefined => "undefined"
  | VNull => "null"
  | VBool true => "true"
  | VBool false => "false"
  | VNum n => Z_to_string n
  | VStr s => s
  | VArr l =>
      join "," (map (fun e => match e with
                              | VUndefined | VNull => ""
                              | _ => toStr e
                              end) l)
  | VObj _ => "[object Object]"
  | VError name message =>
      if String.eqb message "" then name else name ++ ": " ++ message
  | VNative member =>
      if String.eqb member "__proto__" then "[object Object]"
      else "function "
           ++ (if String.eqb member "constructor" then "Object" else member)
           ++ "() { [native code] }"
  end.

(** The values a template literal prints as [toStr] says, whatever else
    they hold: [undefined], [null], booleans, strings and the integers
    that a number represents exactly and prints in plain digits. *)
Definition printable (v : Value) : bool :=
  match v with
  | VUndefined | VNull | VBool _ | VStr _ => true
  | VNum n => Z.leb (Z.abs n) 9007199254740991
  | VArr _ | VObj _ | VError _ _ | VNative _ => false
  end.

Definition typeof (v : Value) : string :=
  match v with
  | VUndefined => "undefined"
  | VBool _ => "boolean"
  | VNum _ => "number"
  | VStr _ => "string"
  | VNative member =>
      if String.eqb member "__proto__" then "object" else "function"
  | VNull | VArr _ | VObj _ | VError _ _ => "object"
  end.

(** [a === b] where at least one side is a primitive: objects, arrays and
    functions are compared by identity in JavaScript and are never equal to
    a primitive. *)
Definition strictEquals (a b : Value) : bool :=
  match a, b with
  | VUndefined, VUndefined => true
  | VNull, VNull => true
  | VBool x, VBool y => Bool.eqb x y
  | VNum x, VNum y => Z.eqb x y
  | VStr x, VStr y => String.eqb x y
  | _, _ => false
  end.

(** The property names of [Object.prototype] (ECMAScript, with Annex B),
    which every object reaches through its prototype chain. *)
Definition Object_prototype : list string :=
  [ "constructor"; "hasOwnProperty"; "isPrototypeOf"; "propertyIsEnumerable";
    "toLocaleString"; "toString"; "valueOf"; "__proto__";
    "__defineGetter__"; "__defineSetter__";
    "__lookupGetter__"; "__lookupSetter__" ].

Definition inherited (k : string) : bool :=
  existsb (String.eqb k) Object_prototype.

(** The canonical array index a key denotes, below [n]. *)
Definition index_of_key (k : string) (n : nat) : option nat :=
  find (fun i => String.eqb (nat_to_string i) k) (seq 0 n).

Definition char_at (s : string) (i : nat) : string :=
  match String.get i s with
  | Some c => String c EmptyString
  | None => ""
  end.

(** Own properties.  Strings and arrays own their indices and [length];
    an [Error] owns its [message]. *)
Definition getOwn (v : Value) (k : string) : option Value :=
  match v with
  | VObj o => lookup k o
  | VStr s =>
      if String.eqb k "length" then Some (VNum (Z.of_nat (String.length s)))
      else option_map (fun i => VStr (char_at s i))
                      (index_of_key k (String.length s))
  | VArr l =>
      if String.eqb k "length" then Some (VNum (Z.of_nat (List.length l)))
      else option_map (fun i => nth i l VUndefined)
                      (index_of_key k (List.length l))
  | VError _ message =>
      if String.eqb k "message" then Some (VStr message) else None
  | _ => None
  end.

(** Own enumerable properties as [Object.assign] and [for-in] see them:
    [length] and an error's [message] are not enumerable. *)
Definition ownEnumerable (v : Value) : Props :=
  match v with
  | VObj o => o
  | VStr s =>
      map (fun i => (nat_to_string i, VStr (char_at s i)))
          (seq 0 (String.length s))
  | VArr l =>
      map (fun i => (nat_to_string i, nth i l VUndefined))
          (seq 0 (List.length l))
  | _ => []
  end.

(** [v[k]] for a [v] that is neither [undefined] nor [null]: the own
    property, else the member inherited from [Object.prototype], else
    [undefined].  The members of the type-specific prototypes
    ([Array.prototype], [String.prototype], ...) are not modelled: the code
    reads no property of that name. *)
Definition getMember (v : Value) (k : string) : Value :=
  match getOwn v k with
  | Some x => x
  | None => if inherited k then VNative k else VUndefined
  end.

(** [k in o] for a plain object [o]: own or inherited. *)
Definition hasProperty (o : Props) (k : string) : bool :=
  match lookup k o with
  | Some _ => true
  | None => inherited k
  end.

(** [Object.assign(target, source)]: each own enumerable property of the
    source is assigned to the target with an ordinary [[Set]].  A
    [null] or [undefined] source is skipped.  Assigning to the key
    [__proto__] runs the setter inherited from [Object.prototype]; it
    creates no own property. *)
Definition assign1 (target : Props) (source : Value) : Props :=
  fold_left (fun t kv =>
               if String.eqb (fst kv) "__proto__" then t
               else store (fst kv) (snd kv) t)
            (ownEnumerable source) target.

Definition Object_assign (target : Props) (sources : list Value) : Props :=
  fold_left assign1 sources target.

End JS.
Export JS.

(* ================================================================== *)
(** ** Completions *)
(* ================================================================== *)

(** The outcome of evaluating a piece of JavaScript synchronously: a value,
    or an exception thrown at the caller. *)
Inductive Completion (A : Type) : Type :=
| Normal (a : A)
| Thrown (e : Value).
Arguments Normal {A} a.
Arguments Thrown {A} e.

Definition cbind {A B} (c : Completion A) (k : A -> Completion B)
  : Completion B :=
  match c with
  | Normal a => k a
  | Thrown e => Thrown e
  end.

(** The [TypeError] raised by a property access on [undefined] or [null];
    the message text is the engine's and is left out. *)
Definition TypeError : Value := VError "TypeError" "".

(** [v.k] and [v[k]]. *)
Definition getProp (v : Value) (k : string) : Completion Value :=
  match v with
  | VUndefined | VNull => Thrown TypeError
  | _ => Normal (getMember v k)
  end.

(** [delete v.k] for a key that is neither an index nor [length]. *)
Definition deleteProp (v : Value) (k : string) : Completion Value :=
  match v with
  | VUndefined | VNull => Thrown TypeError
  | VObj o => Normal (VObj (remove k o))
  | _ => Normal v
  end.

(** A settled promise. *)
Inductive Settled : Type :=
| Fulfilled (v : Value)
| Rejected (reason : Value).

(* ================================================================== *)
(** ** index.js: the client *)
(* ================================================================== *)

Module Smapi.

Definition BASE_URLS : Props :=
  [ ("NA", VStr "https://api.amazonalexa.com");
    ("EU", VStr "https://api.eu.amazonalexa.com");
    ("FE", VStr "https://api.fe.amazonalexa.com") ].
Definition DEFAULT_GEO_REGION : string := "NA".

Definition VERSION_0 : string := "v0".
Definition VERSION_1 : string := "v1".
Definition SUPPORTED_VERSIONS : list string := [VERSION_0; VERSION_1].
Definition DEFAULT_VERSION : string :=
  nth (List.length SUPPORTED_VERSIONS - 1) SUPPORTED_VERSIONS "".

(** [array.includes(v)] on an array of strings. *)
Definition includes (l : list string) (v : Value) : bool :=
  existsb (fun s => strictEquals v (VStr s)) l.

(** *** The transport *)

Inductive Verb : Type := HEAD | GET | POST | PUT | DELETE.

(** What is handed to axios: the verb, the url and, where the adapter
    passes one, the second argument (the [{params}] config of a GET, the
    body of a POST or PUT). *)
Record Request : Type := mkRequest {
  verb : Verb;
  url : Value;
  arg : option Value
}.

(** An axios response, with the fields the adapter reads; [headers] is an
    object in every axios response. *)
Record Response : Type := mkResponse {
  status : Z;
  statusText : string;
  headers : Props;
  data : Value
}.

(** What axios settles a request with: a response, or a rejection with an
    error object whose [response] property holds the failed response, when
    there is one. *)
Inductive Transport : Type :=
| Replied (response : Response)
| Failed (error : Props).

(** A request in flight together with the [.then(...).catch(...)] chain the
    adapter hangs on it. *)
Record Pending : Type := mkPending {
  request : Request;
  settle : Transport -> Settled
}.

(** [axios.create({baseURL, headers})]. *)
Record Instance : Type := mkInstance {
  baseURL : Value;
  instance_headers : Props
}.

(** The process-wide [axios.defaults] the configuration operations write. *)
Record Defaults : Type := mkDefaults {
  defaults_baseURL : Value;
  defaults_Authorization : Value
}.

(** The object [alexaSMAPI] returns, with the adapter it closes over. *)
Record Client : Type := mkClient {
  version : Value;
  client : Instance
}.

(** [params !== undefined ? params : {}] *)
Definition orEmpty (parameters : Value) : Value :=
  if negb (strictEquals parameters VUndefined) then parameters else VObj [].

Definition location_etag (response : Response) : Value :=
  VObj [ ("location", getMember (VObj (headers response)) "location");
         ("etag", getMember (VObj (headers response)) "etag") ].

(** [.catch(response => Promise.reject(response.response))] *)
Definition reject_response (error : Props) : Settled :=
  Rejected (getMember (VObj error) "response").

Definition rest_head (url : Value) : Pending :=
  {| request := mkRequest HEAD url None;
     settle := fun t =>
       match t with
       | Replied response => Fulfilled (location_etag response)
       | Failed error => reject_response error
       end |}.

Definition rest_get (url parameters : Value) : Pending :=
  {| request := mkRequest GET url (Some (VObj [("params", orEmpty parameters)]));
     settle := fun t =>
       match t with
       | Replied response => Fulfilled (data response)
       | Failed error => reject_response error
       end |}.

Definition rest_post (url parameters : Value) : Pending :=
  {| request := mkRequest POST url (Some (orEmpty parameters));
     settle := fun t =>
       match t with
       | Replied response =>
           Fulfilled (VObj (Object_assign []
                              [location_etag response; data response]))
       | Failed error => reject_response error
       end |}.

Definition rest_put (url parameters : Value) : Pending :=
  {| request := mkRequest PUT url (Some (orEmpty parameters));
     settle := fun t =>
       match t with
       | Replied response => Fulfilled (location_etag response)
       | Failed error => reject_response error
       end |}.

Definition rest_delete (url : Value) : Pending :=
  {| request := mkRequest DELETE url None;
     settle := fun t =>
       match t with
       | Replied response => Fulfilled (data response)
       | Failed error => reject_response error
       end |}.

(** *** Construction *)

Definition alexaSMAPI (params : Value) : Completion Client :=
  let params := orEmpty params in
  cbind (getProp params "version") (fun params_version =>
  let version :=
    if includes SUPPORTED_VERSIONS params_version then params_version
    else VStr DEFAULT_VERSION in
  cbind (getProp params "region") (fun params_region =>
  let region :=
    if hasProperty BASE_URLS (toStr params_region) then toStr params_region
    else DEFAULT_GEO_REGION in
  Normal {| version := version;
            client := {| baseURL := getMember (VObj BASE_URLS) region;
                         instance_headers :=
                           [ ("Content-Type", VStr "application/json");
                             ("Accept", VStr "application/json") ] |} |})).

(** *** Configuration *)

Definition refreshToken (token : Value) (axios : Defaults)
  : Completion Defaults :=
  if negb (String.eqb (typeof token) "string")
     || strictEquals (getMember token "length") (VNum 0)
  then Thrown (VError "Error" "Invalid token specified!")
  else Normal {| defaults_baseURL := defaults_baseURL axios;
                 defaults_Authorization := token |}.

Definition setBaseUrl (url : Value) (axios : Defaults)
  : Completion Defaults :=
  if negb (String.eqb (typeof url) "string")
     || strictEquals (getMember url "length") (VNum 0)
  then Thrown (VError "Error" "Invalid base url specified!")
  else Normal {| defaults_baseURL := url;
                 defaults_Authorization := defaults_Authorization axios |}.


(** [tokens.refresh]: the body sent to the token endpoint, and what the
    [.then(...).catch(...)] chain does with the reply.  A reply whose
    [access_token] is accepted by [refreshToken] becomes the credential. *)
Definition tokens_refresh_data (params : Value) : Completion Value :=
  cbind (getProp params "refreshToken") (fun refresh_token =>
  cbind (getProp params "clientId") (fun client_id =>
  cbind (getProp params "clientSecret") (fun client_secret =>
  Normal (VObj [ ("grant_type", VStr "refresh_token");
                 ("refresh_token", refresh_token);
                 ("client_id", client_id);
                 ("client_secret", client_secret) ])))).

Definition tokens_refresh_settle (t : Transport) (axios : Defaults)
  : Settled * Defaults :=
  match t with
  | Replied response =>
      match cbind (getProp (data response) "access_token")
                  (fun token => refreshToken token axios) with
      | Normal axios' => (Fulfilled (data response), axios')
      | Thrown e => (Rejected (getMember e "response"), axios)
      end
  | Failed error => (reject_response error, axios)
  end.

(** The mutable state a client lives in: its own object and the
    process-wide axios defaults. *)
Record World : Type := mkWorld {
  smapi_of : Client;
  axios_of : Defaults
}.

(** The operations of the client that write state. *)
Inductive Config : Type :=
| RefreshToken (token : Value)
| SetBaseUrl (url : Value)
| TokensRefresh (reply : Transport).

Definition configure (c : Config) (w : World) : World :=
  match c with
  | RefreshToken token =>
      match refreshToken token (axios_of w) with
      | Normal axios' => mkWorld (smapi_of w) axios'
      | Thrown _ => w
      end
  | SetBaseUrl url =>
      match setBaseUrl url (axios_of w) with
      | Normal axios' => mkWorld (smapi_of w) axios'
      | Thrown _ => w
      end
  | TokensRefresh reply =>
      mkWorld (smapi_of w) (snd (tokens_refresh_settle reply (axios_of w)))
  end.

Definition configure_all (cs : list Config) (w : World) : World :=
  fold_left (fun w c => configure c w) cs w.

(** Every request of the adapter is issued on [rest.client]
    ([this.client.head(url)], [this.client.get(url, ...)], ...), the
    instance that [axios.create] built at construction with a [baseURL] of
    its own; that base is what the urls of the catalogue are resolved
    against, whatever [axios.defaults] holds. *)
Definition base_of_requests (w : World) : Value :=
  baseURL (client (smapi_of w)).

(** *** The operation catalogue *)

Section Catalogue.

Variable smapi : Client.

(** [url[smapi.version]] for [const url = {v0: ..., v1: ...}]. *)
Definition by_version (v0 v1 : string) : Value :=
  getMember (VObj [("v0", VStr v0); ("v1", VStr v1)]) (toStr (version smapi)).

Definition is_version (v : string) : bool :=
  strictEquals (version smapi) (VStr v).

(** An operation whose branches cover the two versions only returns
    [undefined] ([None]) under any other. *)

Definition skills_getManifest (skillId stage : Value) : Pending :=
  rest_get
    (by_version ("/v0/skills/" ++ toStr skillId)
                ("/v1/skills/" ++ toStr skillId ++ "/stages/" ++ toStr stage
                 ++ "/manifest"))
    VUndefined.

Definition skills_create (vendorId skillManifest : Value) : option Pending :=
  if is_version VERSION_0 then
    Some (rest_post (VStr "/v0/skills")
            (VObj [("vendorId", vendorId); ("skillManifest", skillManifest)]))
  else if is_version VERSION_1 then
    Some (rest_post (VStr "/v1/skills")
            (VObj [("vendorId", vendorId); ("manifest", skillManifest)]))
  else None.

Definition skills_update (skillId stage skillManifest : Value)
  : option Pending :=
  if is_version VERSION_0 then
    let skillManifest := stage in
    Some (rest_put (VStr ("/v0/skills/" ++ toStr skillId))
            (VObj [("skillManifest", skillManifest)]))
  else if is_version VERSION_1 then
    Some (rest_put
            (VStr ("/v1/skills/" ++ toStr skillId ++ "/stages/"
                   ++ toStr stage ++ "/manifest"))
            (VObj [("manifest", skillManifest)]))
  else None.

Definition skills_status (skillId : Value) : Pending :=
  rest_get
    (VStr ("/" ++ toStr (version smapi) ++ "/skills/" ++ toStr skillId
           ++ "/status"))
    VUndefined.

Definition skills_list (vendorId maxResults nextToken : Value) : Pending :=
  rest_get (VStr ("/" ++ toStr (version smapi) ++ "/skills"))
    (VObj [("vendorId", vendorId); ("maxResults", maxResults);
           ("nextToken", nextToken)]).

Definition skills_delete (skillId : Value) : Pending :=
  rest_delete
    (VStr ("/" ++ toStr (version smapi) ++ "/skills/" ++ toStr skillId)).

Definition interactionModel_url (skillId stage locale : Value) : Value :=
  by_version
    ("/v0/skills/" ++ toStr skillId ++ "/interactionModel/locales/"
     ++ toStr locale)
    ("/v1/skills/" ++ toStr skillId ++ "/stages/" ++ toStr stage
     ++ "/interactionModel/locales/" ++ toStr locale).

Definition interactionModel_get (skillId stage locale : Value) : Pending :=
  let locale := if is_version VERSION_0 then stage else locale in
  rest_get (interactionModel_url skillId stage locale) VUndefined.

Definition interactionModel_getEtag (skillId stage locale : Value) : Pending :=
  let locale := if is_version VERSION_0 then stage else locale in
  rest_head (interactionModel_url skillId stage locale).

Definition interactionModel_update
    (skillId stage locale interactionModel : Value) : option Pending :=
  if is_version VERSION_0 then
    let interactionModel := locale in
    let locale := stage in
    Some (rest_post
            (VStr ("/v0/skills/" ++ toStr skillId
                   ++ "/interactionModel/locales/" ++ toStr locale))
            (VObj [("interactionModel", interactionModel)]))
  else if is_version VERSION_1 then
    Some (rest_put
            (VStr ("/v1/skills/" ++ toStr skillId ++ "/stages/"
                   ++ toStr stage ++ "/interactionModel/locales/"
                   ++ toStr locale))
            (VObj [("interactionModel", interactionModel)]))
  else None.

Definition interactionModel_getStatus (skillId locale : Value) : Pending :=
  rest_get
    (by_version
       ("/v0/skills/" ++ toStr skillId ++ "/interactionModel/locales/"
        ++ toStr locale ++ "/status")
       ("/v1/skills/" ++ toStr skillId ++ "/status?resource=interactionModel"))
    VUndefined.

Definition accountLinking_url (skillId stage : Value) : Value :=
  by_version
    ("/v0/skills/" ++ toStr skillId ++ "/accountLinkingClient")
    ("/v1/skills/" ++ toStr skillId ++ "/stages/" ++ toStr stage
     ++ "/accountLinkingClient").

Definition accountLinking_update
    (skillId stage accountLinkingRequest : Value) : Pending :=
  let accountLinkingRequest :=
    if is_version VERSION_0 then stage else accountLinkingRequest in
  rest_put (accountLinking_url skillId stage)
    (VObj [("accountLinkingRequest", accountLinkingRequest)]).

Definition accountLinking_readInfo (skillId stage : Value) : Pending :=
  rest_get (accountLinking_url skillId stage) VUndefined.

Definition accountLinking_delete (skillId stage : Value) : Pending :=
  rest_delete
    (VStr ("/v1/skills/" ++ toStr skillId ++ "/stages/" ++ toStr stage
           ++ "/accountLinkingClient")).

Definition vendors_list : Pending :=
  rest_get (VStr ("/" ++ toStr (version smapi) ++ "/vendors")) VUndefined.

Definition enablement_url (skillId stage : Value) : Value :=
  VStr ("/v1/skills/" ++ toStr skillId ++ "/stages/" ++ toStr stage
        ++ "/enablement").

Definition skillEnablement_enable (skillId stage : Value) : Pending :=
  rest_put (enablement_url skillId stage) VUndefined.

Definition skillEnablement_status (skillId stage : Value) : Pending :=
  rest_get (enablement_url skillId stage) VUndefined.

Definition skillEnablement_disable (skillId stage : Value) : Pending :=
  rest_delete (enablement_url skillId stage).

Definition skillCertification_submit (skillId : Value) : Pending :=
  rest_post
    (VStr ("/" ++ toStr (version smapi) ++ "/skills/" ++ toStr skillId
           ++ "/submit"))
    VUndefined.

Definition skillCertification_status (vendorId skillId : Value) : Pending :=
  rest_get (VStr "/v1/skills")
    (VObj [("vendorId", vendorId); ("skillId", skillId)]).

Definition skillCertification_withdraw (skillId reason message : Value)
  : Pending :=
  rest_post
    (VStr ("/" ++ toStr (version smapi) ++ "/skills/" ++ toStr skillId
           ++ "/withdraw"))
    (VObj [("reason", reason); ("message", message)]).

Definition skillTesting_validate (skillId stage locales : Value) : Pending :=
  rest_post
    (VStr ("/v1/skills/" ++ toStr skillId ++ "/stages/" ++ toStr stage
           ++ "/validations"))
    (VObj [("locales", locales)]).

Definition skillTesting_validationStatus (skillId stage validationId : Value)
  : Pending :=
  rest_get
    (VStr ("/v1/skills/" ++ toStr skillId ++ "/stages/" ++ toStr stage
           ++ "/validations/" ++ toStr validationId))
    VUndefined.

Definition skillTesting_invoke (skillId endpointRegion skillRequest : Value)
  : Pending :=
  rest_post
    (VStr ("/" ++ toStr (version smapi) ++ "/skills/" ++ toStr skillId
           ++ "/invocations"))
    (VObj [("endpointRegion", endpointRegion);
           ("skillRequest", skillRequest)]).

Definition skillTesting_simulate (skillId content locale : Value) : Pending :=
  rest_post
    (VStr ("/" ++ toStr (version smapi) ++ "/skills/" ++ toStr skillId
           ++ "/simulations"))
    (VObj [("input", VObj [("content", content)]);
           ("device", VObj [("locale", locale)])]).

Definition skillTesting_simulationStatus (skillId requestId : Value)
  : Pending :=
  rest_get
    (VStr ("/" ++ toStr (version smapi) ++ "/skills/" ++ toStr skillId
           ++ "/simulations/" ++ toStr requestId))
    VUndefined.

(** [intentRequests.list(params)] reads [params.skillId], deletes it from
    the caller's object and forwards that same object.  The result pairs
    the caller's object as the call leaves it with the request. *)
Definition intentRequests_list (params : Value)
  : Completion (Value * Pending) :=
  cbind (getProp params "skillId") (fun skillId =>
  cbind (deleteProp params "skillId") (fun params =>
  Normal (params,
          rest_get
            (VStr ("/v1/skills/" ++ toStr skillId
                   ++ "/history/intentRequests"))
            params))).

Definition custom_head (url : Value) : Pending := rest_head url.
Definition custom_get (url parameters : Value) : Pending :=
  rest_get url parameters.
Definition custom_post (url parameters : Value) : Pending :=
  rest_post url parameters.
Definition custom_put (url parameters : Value) : Pending :=
  rest_put url parameters.
Definition custom_delete (url : Value) : Pending := rest_delete url.

End Catalogue.

End Smapi.
Export Smapi.

(* ================================================================== *)
(** ** The conformance suite: handlers and pollers *)
(* ================================================================== *)

Module Suite.

Definition LOG_RESPONSES : bool := false.
Definition LOG_ERRORS : bool := true.
Definition MAX_RETRIES : nat := 10.
Definition RETRY_TIMEOUT : Z := 10000.
Definition WITHDRAWAL_TIMEOUT : Z := 1 * 60 * 1000.
Definition MOCHA_TIMEOUT : Z := WITHDRAWAL_TIMEOUT + 10000.

Definition SKILL_READY : Props :=
  [("v0", VStr "SUCCESSFUL"); ("v1", VStr "SUCCEEDED")].
Definition MODEL_READY : Props :=
  [("v0", VStr "SUCCESS"); ("v1", VStr "SUCCEEDED")].

(** *** Effects *)

(** What [console.log] is given: a string, or [JSON.stringify(v, null, ' ')]
    of a value, kept as the value. *)
Inductive Output : Type :=
| Text (s : string)
| Json (v : Value).

Inductive Event : Type :=
| Issued (r : Request)
| ConsoleLog (o : Output)
| Slept (ms : Z).

(** A computation leaves a trace and completes normally or throws. *)
Definition M (A : Type) : Type := (list Event * Completion A)%type.

Definition ret {A} (a : A) : M A := ([], Normal a).

Definition bind {A B} (m : M A) (k : A -> M B) : M B :=
  match m with
  | (t, Normal a) => let (t', c) := k a in ((t ++ t')%list, c)
  | (t, Thrown e) => (t, Thrown e)
  end.

Definition lift {A} (c : Completion A) : M A := ([], c).
Definition emit (e : Event) : M unit := ([e], Normal tt).

Notation "x <- m ;; k" := (bind m (fun x => k))
  (at level 61, m at next level, right associativity).
Notation "m ;; k" := (bind m (fun _ => k))
  (at level 61, right associativity).

Definition console_log (o : Output) : M unit := emit (ConsoleLog o).

(** [sleep(ms).then(x => x)]: [sleep] resolves with no value, and the
    callback, whose parameter shadows the binding around it, forwards that
    [undefined]. *)
Definition sleep_then_identity (ms : Z) : M Value :=
  emit (Slept ms) ;; ret VUndefined.

Definition showResponse (response : Value) : M unit :=
  if LOG_RESPONSES then console_log (Json response) else ret tt.

Definition showError (error : Value) : M unit :=
  if LOG_ERRORS then console_log (Json error) else ret tt.

(** *** Error handlers *)

Definition errorSummary (error : Value) : Completion Value :=
  cbind (getProp error "status") (fun status =>
  cbind (getProp error "statusText") (fun statusText =>
  cbind (getProp error "data") (fun data =>
  Normal (VObj [ ("status", status); ("statusText", statusText);
                 ("data", data) ])))).

Definition operation_status_text (status message : Value) (ms : Z) : string :=
  "---> Operation status: " ++ toStr status ++ " (" ++ toStr message
  ++ ") - will sleep for " ++ Z_to_string (ms / 1000) ++ "s & retry <---".

Definition retry (error : Value) : M Value :=
  summary <- lift (errorSummary error) ;;
  if strictEquals (getMember summary "status") (VNum 429) then
    message <- lift (getProp (getMember summary "data") "message") ;;
    console_log (Text (operation_status_text (getMember summary "status")
                         message RETRY_TIMEOUT)) ;;
    sleep_then_identity RETRY_TIMEOUT
  else
    showError summary ;;
    ret summary.

Definition waitOnCertification (error : Value) : M Value :=
  summary <- lift (errorSummary error) ;;
  if negb (strictEquals (getMember summary "status") (VNum 200)) then
    showError summary ;;
    message <- lift (getProp (getMember summary "data") "message") ;;
    console_log (Text (operation_status_text (getMember summary "status")
                         message WITHDRAWAL_TIMEOUT)) ;;
    sleep_then_identity WITHDRAWAL_TIMEOUT
  else ret summary.

(** *** Pollers *)

Definition building_text (what : string) (status : Value) (again : bool)
  : string :=
  if again then
    "---> " ++ what ++ " building: " ++ toStr status ++ " - will sleep for "
    ++ Z_to_string (RETRY_TIMEOUT / 1000) ++ "s & retry <---"
  else "---> " ++ what ++ " building: " ++ toStr status ++ " <---".

(** The status a skill-status response carries, at the path of the
    version under test. *)
Definition skillStatus (TEST_VERSION : string) (response : Value)
  : Completion Value :=
  if String.eqb TEST_VERSION VERSION_0 then
    cbind (getProp response "manifest") (fun manifest =>
    cbind (getProp manifest "lastModified") (fun lastModified =>
    getProp lastModified "status"))
  else if String.eqb TEST_VERSION VERSION_1 then
    cbind (getProp response "manifest") (fun manifest =>
    cbind (getProp manifest "lastUpdateRequest") (fun lastUpdateRequest =>
    getProp lastUpdateRequest "status"))
  else Normal VUndefined.

Definition waitOnSkill (TEST_VERSION : string) (response : Value) : M Value :=
  showResponse response ;;
  status <- lift (skillStatus TEST_VERSION response) ;;
  if negb (strictEquals status (getMember (VObj SKILL_READY) TEST_VERSION))
  then
    console_log (Text (building_text "Skill" status true)) ;;
    sleep_then_identity RETRY_TIMEOUT
  else
    console_log (Text (building_text "Skill" status false)) ;;
    ret response.

Fixpoint replace_nth {A} (i : nat) (x : A) (l : list A) : list A :=
  match l, i with
  | [], _ => []
  | _ :: rest, O => x :: rest
  | y :: rest, S j => y :: replace_nth j x rest
  end.

(** A response is a tree, so mutating the object found at [holder[k]] in
    place is the same as putting the mutated object back where it was
    read: at an own property of an object, or at an index of an array. *)
Definition write_back (holder : Value) (k : string) (x : Value) : Value :=
  match holder with
  | VObj o =>
      match lookup k o with
      | Some _ => VObj (store k x o)
      | None => holder
      end
  | VArr l =>
      if String.eqb k "length" then holder
      else match index_of_key k (List.length l) with
           | Some i => VArr (replace_nth i x l)
           | None => holder
           end
  | _ => holder
  end.

Section Model.

(** [testData.locale], defined in the suite's data file. *)
Variable locale : string.

(** The status a model-status response carries, and the response as the
    extraction leaves it: under the current version the [eTag] of the
    locale's entry is deleted from the response itself. *)
Definition modelStatus (TEST_VERSION : string) (response : Value)
  : Completion (Value * Value) :=
  if String.eqb TEST_VERSION VERSION_0 then
    cbind (getProp response "status") (fun status =>
    Normal (status, response))
  else if String.eqb TEST_VERSION VERSION_1 then
    cbind (getProp response "interactionModel") (fun interactionModel =>
    cbind (getProp interactionModel locale) (fun entry =>
    cbind (getProp entry "lastUpdateRequest") (fun lastUpdateRequest =>
    cbind (getProp lastUpdateRequest "status") (fun status =>
    cbind (deleteProp entry "eTag") (fun entry' =>
    Normal (status,
            write_back response "interactionModel"
              (write_back interactionModel locale entry')))))))
  else Normal (VUndefined, response).

Definition waitOnModel (TEST_VERSION : string) (response : Value) : M Value :=
  showResponse response ;;
  sr <- lift (modelStatus TEST_VERSION response) ;;
  let status := fst sr in
  let response := snd sr in
  if negb (strictEquals status (getMember (VObj MODEL_READY) TEST_VERSION))
  then
    console_log (Text (building_text "Model" status true)) ;;
    sleep_then_identity RETRY_TIMEOUT
  else
    console_log (Text (building_text "Model" status false)) ;;
    ret response.

End Model.


(** *** Expectations *)

(** The chai assertions the status tests use, on the settled subject.
    Each fails on a rejected subject and on [undefined]. *)

(** The value at a dotted path, [undefined] when the path breaks. *)
Fixpoint pathval (v : Value) (path : list string) : Value :=
  match path with
  | [] => v
  | k :: rest =>
      match v with
      | VUndefined | VNull => VUndefined
      | _ => pathval (getMember v k) rest
      end
  end.

(** [to.eventually.have.nested.property(path, value)] and
    [to.eventually.have.property(name, value)] for a primitive [value]. *)
Definition have_nested_property (path : list string) (value : Value)
    (subject : Settled) : bool :=
  match subject with
  | Fulfilled v => strictEquals (pathval v path) value
  | Rejected _ => false
  end.

Definition have_property (name : string) (value : Value) (subject : Settled)
  : bool :=
  have_nested_property [name] value subject.

(** Deep equality of chai: primitives by [===], arrays element by
    element, plain objects by their sets of keys and the values under
    them. *)
Fixpoint deepEqual (a b : Value) : bool :=
  match a, b with
  | VObj o1, VObj o2 =>
      Nat.eqb (List.length o1) (List.length o2)
      && forallb (fun kv =>
                    match kv with
                    | (k, v1) =>
                        match lookup k o2 with
                        | Some v2 => deepEqual v1 v2
                        | None => false
                        end
                    end) o1
  | VArr l1, VArr l2 =>
      (fix all2 (l1 l2 : list Value) : bool :=
         match l1, l2 with
         | [], [] => true
         | x :: xs, y :: ys => deepEqual x y && all2 xs ys
         | _, _ => false
         end) l1 l2
  | VError n1 m1, VError n2 m2 => String.eqb n1 n2 && String.eqb m1 m2
  | VNative m1, VNative m2 => String.eqb m1 m2
  | _, _ => strictEquals a b
  end.

(** [to.eventually.become(expected)] *)
Definition become (expected : Value) (subject : Settled) : bool :=
  match subject with
  | Fulfilled v => deepEqual v expected
  | Rejected _ => false
  end.

(** *** Tests under [this.retries] *)

(** A test of the suite: [beforeEach] issues the call, [it] chains the two
    handlers on it with [subject.then(onFulfilled, onRejected)] and returns
    the expectation on the outcome. *)
Record Test : Type := mkTest {
  beforeEach : Pending;
  onFulfilled : Value -> M Value;
  onRejected : Value -> M Value;
  expectation : Settled -> bool
}.

Definition subject_of (c : Completion Value) : Settled :=
  match c with
  | Normal v => Fulfilled v
  | Thrown e => Rejected e
  end.

(** One attempt: its trace, and whether the expectation held. *)
Definition attempt (t : Test) (reply : Transport) : list Event * bool :=
  let (trace, c) :=
    match settle (beforeEach t) reply with
    | Fulfilled v => onFulfilled t v
    | Rejected e => onRejected t e
    end in
  (Issued (request (beforeEach t)) :: trace, expectation t (subject_of c)).

(** Mocha re-runs a failed test, hooks included, while retries remain;
    [server n] is what the service answers to the [n]-th request. *)
Fixpoint run (retries : nat) (t : Test) (server : nat -> Transport) (n : nat)
  : list Event * bool :=
  let (trace, passed) := attempt t (server n) in
  if passed then (trace, true)
  else match retries with
       | O => (trace, false)
       | S r =>
           let (trace', passed') := run r t server (S n) in
           ((trace ++ trace')%list, passed')
       end.

(** [require('../index')({version: TEST_VERSION})] *)
Definition smapiClient (TEST_VERSION : string) : Completion Client :=
  alexaSMAPI (VObj [("version", VStr TEST_VERSION)]).

(** "Get the status of a skill (and wait for changes to finish)" *)
Definition skill_status_test (client : Client) (TEST_VERSION : string)
    (skillId : Value) : Test :=
  {| beforeEach := skills_status client skillId;
     onFulfilled := waitOnSkill TEST_VERSION;
     onRejected := retry;
     expectation :=
       if String.eqb TEST_VERSION VERSION_0 then
         have_nested_property ["manifest"; "lastModified"; "status"]
           (getMember (VObj SKILL_READY) TEST_VERSION)
       else if String.eqb TEST_VERSION VERSION_1 then
         have_nested_property ["manifest"; "lastUpdateRequest"; "status"]
           (getMember (VObj SKILL_READY) TEST_VERSION)
       else fun _ => true |}.

(** "Get the Interaction Model Building Status" *)
Definition model_status_test (locale : string) (client : Client)
    (TEST_VERSION : string) (skillId : Value) : Test :=
  {| beforeEach := interactionModel_getStatus client skillId (VStr locale);
     onFulfilled := waitOnModel locale TEST_VERSION;
     onRejected := retry;
     expectation :=
       if String.eqb TEST_VERSION VERSION_0 then
         have_property "status" (getMember (VObj MODEL_READY) TEST_VERSION)
       else if String.eqb TEST_VERSION VERSION_1 then
         become
           (VObj [("interactionModel",
              VObj [("en-US",
                VObj [("lastUpdateRequest",
                  VObj [("status",
                         getMember (VObj MODEL_READY) TEST_VERSION)])])])])
       else fun _ => true |}.


(** The fulfilment handler most tests chain:
    [function(response) { showResponse(response); return response; }] *)
Definition pass_through (response : Value) : M Value :=
  showResponse response ;; ret response.

(** "Withdraw a skill from certification" *)
Definition withdraw_test (client : Client) (skillId reason message : Value)
  : Test :=
  {| beforeEach := skillCertification_withdraw client skillId reason message;
     onFulfilled := pass_through;
     onRejected := waitOnCertification;
     expectation :=
       become (VObj [("etag", VUndefined); ("location", VUndefined)]) |}.


(** *** The calls of the catalogue tests and of the custom tests *)

Section Calls.

(** The client under test, the version under test and the test data the
    calls are made with. *)
Variable client : Client.
Variable TEST_VERSION : string.
Variables skillId stage locale interactionModel accountLinkingRequest : Value.

(** [url[TEST_VERSION]] for the url table a custom test writes out. *)
Definition suite_url (v0 v1 : string) : Value :=
  getMember (VObj [("v0", VStr v0); ("v1", VStr v1)]) TEST_VERSION.

Definition suite_model_url : Value :=
  suite_url
    ("/v0/skills/" ++ toStr skillId ++ "/interactionModel/locales/"
     ++ toStr locale)
    ("/v1/skills/" ++ toStr skillId ++ "/stages/" ++ toStr stage
     ++ "/interactionModel/locales/" ++ toStr locale).

(** "Update Interaction Model" and "post() & put() - Update Interaction
    Model" *)
Definition update_model_call : option Pending :=
  if String.eqb TEST_VERSION VERSION_0 then
    interactionModel_update client skillId locale interactionModel VUndefined
  else if String.eqb TEST_VERSION VERSION_1 then
    interactionModel_update client skillId stage locale interactionModel
  else None.

Definition custom_update_model_call : option Pending :=
  if String.eqb TEST_VERSION VERSION_0 then
    Some (custom_post suite_model_url
            (VObj [("interactionModel", interactionModel)]))
  else if String.eqb TEST_VERSION VERSION_1 then
    Some (custom_put suite_model_url
            (VObj [("interactionModel", interactionModel)]))
  else None.

(** "Head Interaction Model" and "head() - Head Interaction Model" *)
Definition head_model_call : option Pending :=
  if String.eqb TEST_VERSION VERSION_0 then
    Some (interactionModel_getEtag client skillId locale VUndefined)
  else if String.eqb TEST_VERSION VERSION_1 then
    Some (interactionModel_getEtag client skillId stage locale)
  else None.

Definition custom_head_model_call : Pending :=
  custom_head suite_model_url.

(** "Get the Interaction Model Building Status" and its [get()] twin *)
Definition model_status_call : Pending :=
  interactionModel_getStatus client skillId locale.

Definition custom_model_status_call : Pending :=
  custom_get
    (suite_url
       ("/v0/skills/" ++ toStr skillId ++ "/interactionModel/locales/"
        ++ toStr locale ++ "/status")
       ("/v1/skills/" ++ toStr skillId ++ "/status?resource=interactionModel"))
    VUndefined.

(** "Update Account Linking" and "put() - Update Account Linking" *)
Definition update_linking_call : option Pending :=
  if String.eqb TEST_VERSION VERSION_0 then
    Some (accountLinking_update client skillId accountLinkingRequest
            VUndefined)
  else if String.eqb TEST_VERSION VERSION_1 then
    Some (accountLinking_update client skillId stage accountLinkingRequest)
  else None.

Definition custom_update_linking_call : Pending :=
  custom_put
    (suite_url
       ("/v0/skills/" ++ toStr skillId ++ "/accountLinkingClient")
       ("/v1/skills/" ++ toStr skillId ++ "/stages/" ++ toStr stage
        ++ "/accountLinkingClient"))
    (VObj [("accountLinkingRequest", accountLinkingRequest)]).

(** "Delete Account Linking" and "delete() - Delete Account Linking",
    which run under the current version only *)
Definition delete_linking_call : Pending :=
  accountLinking_delete skillId stage.

Definition custom_delete_linking_call : Pending :=
  custom_delete
    (VStr ("/v1/skills/" ++ toStr skillId ++ "/stages/" ++ toStr stage
           ++ "/accountLinkingClient")).

End Calls.

End Suite.
Export Suite.

(* ================================================================== *)
(** ** Vocabulary of the statements *)
(* ================================================================== *)

(** A header of a response, [undefined] when the response has none of that
    name. *)
Definition header (response : Response) (name : string) : Value :=
  match lookup name (headers response) with
  | Some v => v
  | None => VUndefined
  end.

(** The binding a list of properties ends up giving a key when the
    properties are assigned one after the other. *)
Definition last_binding (k : string) (o : Props) : option Value :=
  lookup k (rev o).

Definition nonEmptyString (v : Value) : bool :=
  match v with
  | VStr s => negb (String.eqb s "")
  | _ => false
  end.

(** Reading a path of property names, one [getProp] after the other. *)
Fixpoint readPath (v : Value) (path : list string) : Completion Value :=
  match path with
  | [] => Normal v
  | k :: rest => cbind (getProp v k) (fun x => readPath x rest)
  end.

Definition cmap {A B} (f : A -> B) (c : Completion A) : Completion B :=
  cbind c (fun a => Normal (f a)).

(** *** Poll targets *)

(** What a poll waits on.  The two pollers of the suite are one state
    machine with a target-specific status path and table of terminal
    values. *)
Inductive Target : Type := Skill | Model.

Definition READY (target : Target) : Props :=
  match target with
  | Skill => SKILL_READY
  | Model => MODEL_READY
  end.

Definition what (target : Target) : string :=
  match target with
  | Skill => "Skill"
  | Model => "Model"
  end.

(** The poller of a target. *)
Definition poll (locale : string) (target : Target) (TEST_VERSION : string)
    (response : Value) : M Value :=
  match target with
  | Skill => waitOnSkill TEST_VERSION response
  | Model => waitOnModel locale TEST_VERSION response
  end.

(** The status the poller of a target extracts from a response, with the
    response as the extraction leaves it. *)
Definition statusOf (locale : string) (target : Target) (TEST_VERSION : string)
    (response : Value) : Completion (Value * Value) :=
  match target with
  | Skill => cmap (fun status => (status, response))
                  (skillStatus TEST_VERSION response)
  | Model => modelStatus locale TEST_VERSION response
  end.

(** The test that polls a target. *)
Definition status_test (locale : string) (target : Target) (client : Client)
    (TEST_VERSION : string) (skillId : Value) : Test :=
  match target with
  | Skill => skill_status_test client TEST_VERSION skillId
  | Model => model_status_test locale client TEST_VERSION skillId
  end.

(** The status path and the terminal value of a target under a version,
    as the specification words them. *)
Definition status_path (locale : string) (target : Target) (v : string)
  : list string :=
  match target with
  | Skill =>
      if String.eqb v "v0" then ["manifest"; "lastModified"; "status"]
      else ["manifest"; "lastUpdateRequest"; "status"]
  | Model =>
      if String.eqb v "v0" then ["status"]
      else ["interactionModel"; locale; "lastUpdateRequest"; "status"]
  end.

Definition terminal_value (target : Target) (v : string) : string :=
  match target with
  | Skill => if String.eqb v "v0" then "SUCCESSFUL" else "SUCCEEDED"
  | Model => if String.eqb v "v0" then "SUCCESS" else "SUCCEEDED"
  end.

(** Every sleep of a trace lasts the fixed retry interval. *)
Definition fixed_interval (trace : list Event) : Prop :=
  forall ms : Z, In (Slept ms) trace -> ms = RETRY_TIMEOUT.

(** *** Further vocabulary *)

(** What a failed request is rejected with: the [response] the error
    carries, [undefined] when it carries none. *)
Definition response_of (error : Props) : Value :=
  match lookup "response" error with
  | Some r => r
  | None => VUndefined
  end.

(** The [access_token] of a token reply, [undefined] when the reply's body
    cannot be read. *)
Definition access_token_of (body : Value) : Value :=
  match getProp body "access_token" with
  | Normal token => token
  | Thrown _ => VUndefined
  end.

(** The requests a trace shows, in order. *)
Fixpoint requests (trace : list Event) : list Request :=
  match trace with
  | [] => []
  | Issued r :: rest => r :: requests rest
  | _ :: rest => requests rest
  end.

(** The time a trace spends asleep, in milliseconds. *)
Fixpoint asleep (trace : list Event) : Z :=
  match trace with
  | [] => 0
  | Slept ms :: rest => ms + asleep rest
  | _ :: rest => asleep rest
  end.

Definition rate_limited : Value :=
  VObj [ ("status", VNum 429); ("statusText", VStr "Too Many Requests");
         ("data", VObj [("message", VStr "Too many requests")]) ].

Definition certification_in_progress : Value :=
  VObj [ ("status", VNum 400); ("statusText", VStr "Bad Request");
         ("data", VObj [("message", VStr "Skill is being certified")]) ].

(** *** Inputs the statements evaluate the code at *)

Definition sample_client : Client :=
  mkClient (VStr "v1") (mkInstance (VStr "https://api.amazonalexa.com") []).

Definition replied (body : Value) : Response :=
  mkResponse 200 "OK" [] body.

Definition building_skill : Value :=
  VObj [("manifest",
    VObj [("lastUpdateRequest", VObj [("status", VStr "IN_PROGRESS")])])].

Definition rate_limited_null_body : Value :=
  VObj [ ("status", VNum 429); ("statusText", VStr "Too Many Requests");
         ("data", VNull) ].

Definition server_error_null_body : Value :=
  VObj [ ("status", VNum 500); ("statusText", VStr "Internal Server Error");
         ("data", VNull) ].

Definition built_model_with_eTag : Value :=
  VObj [("interactionModel",
    VObj [("en-US",
      VObj [ ("eTag", VStr "a1b2c3");
             ("lastUpdateRequest", VObj [("status", VStr "SUCCEEDED")]) ])])].

Definition built_model_without_eTag : Value :=
  VObj [("interactionModel",
    VObj [("en-US",
      VObj [ ("lastUpdateRequest", VObj [("status", VStr "SUCCEEDED")]) ])])].

(* ================================================================== *)
(** ** Objects as property lists *)
(* ================================================================== *)

Lemma lookup_store (k k' : string) (v : Value) (o : Props) :
  lookup k (store k' v o) = if String.eqb k k' then Some v else lookup k o.
Proof.
  induction o as [|[k0 v0] o IH]; simpl.
  - destruct (String.eqb k k'); reflexivity.
  - destruct (String.eqb k' k0) eqn:E0; simpl.
    + apply String.eqb_eq in E0; subst k0.
      destruct (String.eqb k k'); reflexivity.
    + rewrite IH. destruct (String.eqb k k0) eqn:E1; [|reflexivity].
      apply String.eqb_eq in E1; subst k0.
      rewrite String.eqb_sym, E0. reflexivity.
Qed.

Lemma lookup_app (k : string) (a b : Props) :
  lookup k (a ++ b)%list =
  match lookup k a with Some v => Some v | None => lookup k b end.
Proof.
  induction a as [|[k0 v0] a IH]; simpl; [reflexivity|].
  destruct (String.eqb k k0); [reflexivity | exact IH].
Qed.

Lemma lookup_remove_same (k : string) (o : Props) :
  lookup k (remove k o) = None.
Proof.
  unfold remove.
  induction o as [|[k0 v0] o IH]; simpl; [reflexivity|].
  destruct (String.eqb k k0) eqn:E; simpl; [exact IH|].
  rewrite E. exact IH.
Qed.

Lemma lookup_remove_other (k k' : string) (o : Props) :
  k <> k' -> lookup k (remove k' o) = lookup k o.
Proof.
  intros Hk. unfold remove.
  induction o as [|[k0 v0] o IH]; simpl; [reflexivity|].
  destruct (String.eqb k' k0) eqn:E; simpl.
  - apply String.eqb_eq in E; subst k0.
    destruct (String.eqb k k') eqn:E'; [|exact IH].
    apply String.eqb_eq in E'. contradiction.
  - rewrite IH. reflexivity.
Qed.

Lemma remove_absent (k : string) (o : Props) :
  lookup k o = None -> remove k o = o.
Proof.
  unfold remove.
  induction o as [|[k0 v0] o IH]; simpl; [reflexivity|].
  destruct (String.eqb k k0) eqn:E; [discriminate|].
  intros H. simpl. rewrite (IH H). reflexivity.
Qed.

Lemma remove_present_shorter (k : string) (o : Props) :
  lookup k o <> None -> List.length (remove k o) < List.length o.
Proof.
  unfold remove.
  induction o as [|[k0 v0] o IH]; simpl; [congruence|].
  destruct (String.eqb k k0) eqn:E; simpl; intros H.
  - pose proof (filter_length_le
                  (fun kv : string * Value => negb (String.eqb k (fst kv))) o).
    lia.
  - apply IH in H. lia.
Qed.

Lemma store_same (k : string) (v : Value) (o : Props) :
  lookup k o = Some v -> store k v o = o.
Proof.
  induction o as [|[k0 v0] o IH]; simpl; [discriminate|].
  destruct (String.eqb k k0) eqn:E.
  - intros H; inversion H; reflexivity.
  - intros H. rewrite (IH H). reflexivity.
Qed.

(** What a run of assignments leaves under a key. *)
Lemma lookup_assign1 (source : Value) (target : Props) (k : string) :
  lookup k (assign1 target source) =
  if String.eqb k "__proto__" then lookup k target
  else match last_binding k (ownEnumerable source) with
       | Some v => Some v
       | None => lookup k target
       end.
Proof.
  unfold assign1, last_binding.
  generalize (ownEnumerable source) as src. intros src. revert target.
  induction src as [|[k0 v0] src IH]; intros target; simpl.
  - destruct (String.eqb k "__proto__"); reflexivity.
  - rewrite IH, lookup_app. simpl.
    destruct (String.eqb k "__proto__") eqn:Ep.
    + destruct (String.eqb k0 "__proto__") eqn:E0; [reflexivity|].
      rewrite lookup_store.
      destruct (String.eqb k k0) eqn:E; [|reflexivity].
      apply String.eqb_eq in E; subst k0. congruence.
    + destruct (lookup k (rev src)); [reflexivity|].
      destruct (String.eqb k0 "__proto__") eqn:E0.
      * destruct (String.eqb k k0) eqn:E; [|reflexivity].
        apply String.eqb_eq in E; subst k0. congruence.
      * rewrite lookup_store. destruct (String.eqb k k0); reflexivity.
Qed.

Lemma lookup_absent (k : string) (o : Props) :
  ~ In k (map fst o) -> lookup k o = None.
Proof.
  induction o as [|[k0 v0] o IH]; simpl; [reflexivity|].
  intros Hn. destruct (String.eqb k k0) eqn:E.
  - apply String.eqb_eq in E. subst k0. exfalso. apply Hn. left. reflexivity.
  - apply IH. intros Hin. apply Hn. right. exact Hin.
Qed.

(** In an object, whose keys are distinct, the binding a run of
    assignments ends with is the binding of the key. *)
Lemma last_binding_unique (k : string) (o : Props) :
  NoDup (map fst o) -> last_binding k o = lookup k o.
Proof.
  unfold last_binding.
  induction o as [|[k0 v0] o IH]; simpl; [reflexivity|].
  intros Hd. inversion Hd as [|x l Hnotin Hd' Heq]; subst.
  rewrite lookup_app, (IH Hd'). simpl.
  destruct (String.eqb k k0) eqn:E.
  - apply String.eqb_eq in E. subst k0.
    rewrite (lookup_absent _ _ Hnotin). reflexivity.
  - destruct (lookup k o); reflexivity.
Qed.

Lemma strictEquals_string (v : Value) (s : string) :
  strictEquals v (VStr s) = true -> v = VStr s.
Proof.
  destruct v; simpl; try discriminate.
  intros H. apply String.eqb_eq in H. subst. reflexivity.
Qed.

Lemma getMember_own (o : Props) (k : string) (v : Value) :
  lookup k o = Some v -> getMember (VObj o) k = v.
Proof.
  intros H. unfold getMember. simpl. rewrite H. reflexivity.
Qed.

Lemma getProp_object (o : Props) (k : string) :
  getProp (VObj o) k = Normal (getMember (VObj o) k).
Proof. reflexivity. Qed.

(* ================================================================== *)
(** ** The response normaliser *)
(* ================================================================== *)

Lemma header_member (response : Response) (name : string) :
  inherited name = false ->
  getMember (VObj (headers response)) name = header response name.
Proof.
  intros Hn. unfold getMember, header. simpl.
  destruct (lookup name (headers response)); [reflexivity|].
  rewrite Hn. reflexivity.
Qed.

Lemma location_etag_headers (response : Response) :
  location_etag response =
  VObj [ ("location", header response "location");
         ("etag", header response "etag") ].
Proof.
  unfold location_etag.
  rewrite !header_member by reflexivity. reflexivity.
Qed.

(** C5. A successful HEAD or PUT settles with exactly
    [{location, etag}], each field the response header of that name or
    [undefined] when the header is absent; the response body takes no part
    in the result, whatever it is. *)
Theorem C5_head_put_headers_only
    (url parameters : Value) (response : Response) :
  settle (rest_head url) (Replied response) =
    Fulfilled (VObj [ ("location", header response "location");
                      ("etag", header response "etag") ])
  /\ settle (rest_put url parameters) (Replied response) =
    Fulfilled (VObj [ ("location", header response "location");
                      ("etag", header response "etag") ])
  /\ forall body : Value,
       let response' :=
         mkResponse (status response) (statusText response)
                    (headers response) body in
       settle (rest_head url) (Replied response') =
         settle (rest_head url) (Replied response)
       /\ settle (rest_put url parameters) (Replied response') =
         settle (rest_put url parameters) (Replied response).
Proof.
  repeat split; simpl; rewrite ?location_etag_headers; reflexivity.
Qed.

(** C6. A successful POST settles with an object that holds every own
    enumerable property of the response body and, for [location] and
    [etag], the header of that name when the body has no property of that
    name: on a collision the body wins.  (A body key [__proto__] is
    assigned through the inherited setter and leaves no property.) *)
Theorem C6_post_merges_body_over_headers
    (url parameters : Value) (response : Response) :
  exists result : Props,
    settle (rest_post url parameters) (Replied response)
      = Fulfilled (VObj result)
    /\ forall k : string,
         lookup k result =
         if String.eqb k "__proto__" then None
         else match last_binding k (ownEnumerable (data response)) with
              | Some v => Some v
              | None =>
                  if String.eqb k "location"
                  then Some (header response "location")
                  else if String.eqb k "etag"
                       then Some (header response "etag")
                       else None
              end.
Proof.
  eexists. split; [reflexivity|].
  intros k. unfold Object_assign. simpl fold_left.
  rewrite lookup_assign1, location_etag_headers.
  destruct (String.eqb k "__proto__") eqn:Ep.
  - apply String.eqb_eq in Ep; subst k. reflexivity.
  - destruct (last_binding k (ownEnumerable (data response)));
      [reflexivity|].
    simpl. destruct (String.eqb k "location"); [reflexivity|].
    destruct (String.eqb k "etag"); reflexivity.
Qed.

(* ================================================================== *)
(** ** The version dispatcher *)
(* ================================================================== *)

(** C4. Under the legacy version, [interactionModel.update(skillId, locale,
    payload)] is the POST a direct call makes to the single-stage url
    [/v0/skills/{skillId}/interactionModel/locales/{locale}] with body
    [{interactionModel: payload}]: the stage slot is read as the locale, the
    locale slot as the payload, whatever stands in the fourth slot, and the
    payload reaches the body as it was passed. *)
Theorem C4_legacy_update_remap
    (inst : Instance) (skillId locale payload fourth : Value) :
  interactionModel_update (mkClient (VStr VERSION_0) inst)
      skillId locale payload fourth
    = Some (custom_post
              (VStr ("/v0/skills/" ++ toStr skillId
                     ++ "/interactionModel/locales/" ++ toStr locale))
              (VObj [("interactionModel", payload)]))
  /\ option_map request
       (interactionModel_update (mkClient (VStr VERSION_0) inst)
          skillId locale payload fourth)
    = Some (mkRequest POST
              (VStr ("/v0/skills/" ++ toStr skillId
                     ++ "/interactionModel/locales/" ++ toStr locale))
              (Some (VObj [("interactionModel", payload)])))
  /\ interactionModel_update (mkClient (VStr VERSION_0) inst)
       skillId locale payload fourth
     = interactionModel_update (mkClient (VStr VERSION_0) inst)
         skillId locale payload VUndefined.
Proof.
  unfold interactionModel_update, is_version, custom_post. simpl.
  repeat split.
Qed.

(** The sibling remap of [skills.update]: under the legacy version the
    stage slot carries the manifest. *)
Lemma legacy_skills_update (inst : Instance) (skillId manifest third : Value) :
  skills_update (mkClient (VStr VERSION_0) inst) skillId manifest third
  = Some (custom_put (VStr ("/v0/skills/" ++ toStr skillId))
            (VObj [("skillManifest", manifest)])).
Proof. reflexivity. Qed.

(** Under the current version the four slots keep their names. *)
Lemma current_interactionModel_update
    (inst : Instance) (skillId stage locale payload : Value) :
  interactionModel_update (mkClient (VStr VERSION_1) inst)
      skillId stage locale payload
  = Some (custom_put
            (VStr ("/v1/skills/" ++ toStr skillId ++ "/stages/"
                   ++ toStr stage ++ "/interactionModel/locales/"
                   ++ toStr locale))
            (VObj [("interactionModel", payload)])).
Proof. reflexivity. Qed.

(* ================================================================== *)
(** ** Configuration *)
(* ================================================================== *)

Lemma typeof_string (v : Value) :
  String.eqb (typeof v) "string" = true -> exists s, v = VStr s.
Proof.
  destruct v; simpl; try discriminate.
  - eauto.
  - destruct (String.eqb member "__proto__"); discriminate.
Qed.

Lemma invalid_argument (v : Value) :
  negb (String.eqb (typeof v) "string")
  || strictEquals (getMember v "length") (VNum 0)
  = negb (nonEmptyString v).
Proof.
  destruct (String.eqb (typeof v) "string") eqn:Et.
  - destruct (typeof_string v Et) as [s ->]. simpl.
    destruct s; reflexivity.
  - simpl. destruct v; simpl in *; try reflexivity. discriminate.
Qed.

(** [refreshToken] and [setBaseUrl] throw, synchronously, on every
    argument that is not a non-empty string, and leave the defaults alone;
    on a non-empty string they return normally, having stored it as the
    shared [Authorization] header, respectively as the default base url,
    and nothing else. *)
Lemma configuration_errors_are_thrown (v : Value) (axios : Defaults) :
  refreshToken v axios =
    (if nonEmptyString v
     then Normal {| defaults_baseURL := defaults_baseURL axios;
                    defaults_Authorization := v |}
     else Thrown (VError "Error" "Invalid token specified!"))
  /\ setBaseUrl v axios =
    (if nonEmptyString v
     then Normal {| defaults_baseURL := v;
                    defaults_Authorization := defaults_Authorization axios |}
     else Thrown (VError "Error" "Invalid base url specified!")).
Proof.
  unfold refreshToken, setBaseUrl. rewrite invalid_argument.
  destruct (nonEmptyString v); split; reflexivity.
Qed.

(* ================================================================== *)
(** ** Parameter shaping: intentRequests.list *)
(* ================================================================== *)

(** C10. [intentRequests.list(params)] on an object that holds [skillId]
    changes the caller's object: once the call has returned, the object has
    no [skillId], every other property is as it was, and this same object
    is what was forwarded as the query parameters of the GET on
    [/v1/skills/{skillId}/history/intentRequests]. *)
Theorem C10_intentRequests_list_strips_skillId
    (o : Props) (skillId : Value) :
  lookup "skillId" o = Some skillId ->
  exists after : Props,
    intentRequests_list (VObj o)
      = Normal (VObj after,
                rest_get (VStr ("/v1/skills/" ++ toStr skillId
                                ++ "/history/intentRequests"))
                         (VObj after))
    /\ arg (request (rest_get (VStr ("/v1/skills/" ++ toStr skillId
                                     ++ "/history/intentRequests"))
                              (VObj after)))
       = Some (VObj [("params", VObj after)])
    /\ lookup "skillId" after = None
    /\ (forall k, k <> "skillId" -> lookup k after = lookup k o)
    /\ VObj after <> VObj o.
Proof.
  intros Hs. exists (remove "skillId" o).
  unfold intentRequests_list. rewrite getProp_object.
  unfold getMember. simpl getOwn. rewrite Hs. simpl.
  repeat split.
  - apply lookup_remove_same.
  - intros k Hk. apply lookup_remove_other. exact Hk.
  - intros Heq. inversion Heq as [Heq'].
    assert (Hlt : List.length (remove "skillId" o) < List.length o)
      by (apply remove_present_shorter; congruence).
    rewrite Heq' in Hlt. lia.
Qed.

Lemma C10_witness :
  exists after : Props,
    intentRequests_list
      (VObj [("skillId", VStr "amzn1.ask.skill.1"); ("maxResults", VNum 10)])
      = Normal (VObj after,
                rest_get (VStr ("/v1/skills/" ++ toStr (VStr "amzn1.ask.skill.1")
                                ++ "/history/intentRequests"))
                         (VObj after))
    /\ arg (request (rest_get (VStr ("/v1/skills/"
                                     ++ toStr (VStr "amzn1.ask.skill.1")
                                     ++ "/history/intentRequests"))
                              (VObj after)))
       = Some (VObj [("params", VObj after)])
    /\ lookup "skillId" after = None
    /\ (forall k, k <> "skillId" ->
        lookup k after =
        lookup k [("skillId", VStr "amzn1.ask.skill.1");
                  ("maxResults", VNum 10)])
    /\ VObj after <>
       VObj [("skillId", VStr "amzn1.ask.skill.1"); ("maxResults", VNum 10)].
Proof.
  apply (C10_intentRequests_list_strips_skillId
           [("skillId", VStr "amzn1.ask.skill.1"); ("maxResults", VNum 10)]
           (VStr "amzn1.ask.skill.1")).
  reflexivity.
Defined.

(** Without a [skillId] the object is forwarded as it is. *)
Lemma intentRequests_list_without_skillId (o : Props) :
  lookup "skillId" o = None ->
  intentRequests_list (VObj o)
  = Normal (VObj o,
            rest_get (VStr "/v1/skills/undefined/history/intentRequests")
                     (VObj o)).
Proof.
  intros Hs. unfold intentRequests_list. rewrite getProp_object.
  unfold getMember. simpl getOwn. rewrite Hs. simpl.
  rewrite (remove_absent _ _ Hs). reflexivity.
Qed.

(* ================================================================== *)
(** ** Construction *)
(* ================================================================== *)

Lemma getProp_orEmpty (params : Value) (k : string) :
  params <> VNull ->
  getProp (orEmpty params) k = Normal (getMember (orEmpty params) k).
Proof.
  intros Hn. destruct params; try reflexivity. contradiction.
Qed.

Lemma includes_supported (v : Value) :
  includes SUPPORTED_VERSIONS v = true ->
  v = VStr VERSION_0 \/ v = VStr VERSION_1.
Proof.
  unfold includes, SUPPORTED_VERSIONS. simpl.
  destruct (strictEquals v (VStr VERSION_0)) eqn:E0.
  - left. apply strictEquals_string. exact E0.
  - destruct (strictEquals v (VStr VERSION_1)) eqn:E1; [|discriminate].
    right. apply strictEquals_string. exact E1.
Qed.

Lemma configure_keeps_client (c : Config) (w : World) :
  smapi_of (configure c w) = smapi_of w.
Proof.
  destruct c as [token | base | reply]; simpl.
  - destruct (refreshToken token (axios_of w)); reflexivity.
  - destruct (setBaseUrl base (axios_of w)); reflexivity.
  - reflexivity.
Qed.

Lemma configure_all_keeps_client (cs : list Config) (w : World) :
  smapi_of (configure_all cs w) = smapi_of w.
Proof.
  unfold configure_all. revert w.
  induction cs as [|c cs IH]; intros w; simpl; [reflexivity|].
  rewrite IH. apply configure_keeps_client.
Qed.

Lemma configure_all_keeps_base (cs : list Config) (w : World) :
  base_of_requests (configure_all cs w) = base_of_requests w.
Proof.
  unfold base_of_requests. rewrite configure_all_keeps_client. reflexivity.
Qed.




(** C9.  [setBaseUrl] does not reach the requests of the client.  On a
    client constructed without a region, [setBaseUrl] accepts the url of
    the European region and stores it in [axios.defaults.baseURL]; the
    instance the adapter issues its requests on keeps the url of [NA] it
    was created with, before the call and after it. *)
Theorem C9_setBaseUrl_does_not_reach_the_client :
  exists smapi : Client,
    alexaSMAPI VUndefined = Normal smapi
    /\ forall axios : Defaults,
         setBaseUrl (VStr "https://api.eu.amazonalexa.com") axios
         = Normal {| defaults_baseURL := VStr "https://api.eu.amazonalexa.com";
                     defaults_Authorization := defaults_Authorization axios |}
         /\ base_of_requests (mkWorld smapi axios)
            = VStr "https://api.amazonalexa.com"
         /\ base_of_requests
              (configure (SetBaseUrl (VStr "https://api.eu.amazonalexa.com"))
                         (mkWorld smapi axios))
            = VStr "https://api.amazonalexa.com"
         /\ defaults_baseURL
              (axios_of
                 (configure (SetBaseUrl (VStr "https://api.eu.amazonalexa.com"))
                            (mkWorld smapi axios)))
            = VStr "https://api.eu.amazonalexa.com".
Proof.
  eexists. split; [reflexivity|]. intros axios. repeat split.
Qed.

(** The three cases of the version default, on concrete parameter sets. *)
Example version_chosen :
  option_map version
    (match alexaSMAPI (VObj [("version", VStr "v0")]) with
     | Normal c => Some c | Thrown _ => None end) = Some (VStr "v0").
Proof. reflexivity. Qed.

Example version_unrecognised :
  option_map version
    (match alexaSMAPI (VObj [("version", VStr "v2")]) with
     | Normal c => Some c | Thrown _ => None end) = Some (VStr "v1").
Proof. reflexivity. Qed.

Example version_unspecified :
  option_map version
    (match alexaSMAPI VUndefined with
     | Normal c => Some c | Thrown _ => None end) = Some (VStr "v1").
Proof. reflexivity. Qed.

(** *** The region table *)

Lemma region_table :
  lookup "NA" BASE_URLS = Some (VStr "https://api.amazonalexa.com")
  /\ lookup "EU" BASE_URLS = Some (VStr "https://api.eu.amazonalexa.com")
  /\ lookup "FE" BASE_URLS = Some (VStr "https://api.fe.amazonalexa.com")
  /\ List.length BASE_URLS = 3
  /\ forall k, lookup k BASE_URLS <> None -> k = "NA" \/ k = "EU" \/ k = "FE".
Proof.
  repeat split. intros k. simpl.
  destruct (String.eqb k "NA") eqn:E1;
    [apply String.eqb_eq in E1; auto|].
  destruct (String.eqb k "EU") eqn:E2;
    [apply String.eqb_eq in E2; auto|].
  destruct (String.eqb k "FE") eqn:E3;
    [apply String.eqb_eq in E3; auto|].
  congruence.
Qed.

(** The base url a construction arrives at, for parameters that are not
    [null]. *)
Lemma alexaSMAPI_baseURL (params : Value) :
  params <> VNull ->
  exists smapi : Client,
    alexaSMAPI params = Normal smapi
    /\ baseURL (client smapi) =
       getMember (VObj BASE_URLS)
         (if hasProperty BASE_URLS (toStr (getMember (orEmpty params) "region"))
          then toStr (getMember (orEmpty params) "region")
          else DEFAULT_GEO_REGION).
Proof.
  intros Hn. unfold alexaSMAPI.
  rewrite !getProp_orEmpty by exact Hn. cbn [cbind].
  eexists. split; reflexivity.
Qed.

(** A region of the table selects its url. *)
Lemma region_recognised (params : Value) (url : Value) :
  params <> VNull ->
  lookup (toStr (getMember (orEmpty params) "region")) BASE_URLS = Some url ->
  exists smapi : Client,
    alexaSMAPI params = Normal smapi /\ baseURL (client smapi) = url.
Proof.
  intros Hn Hl. destruct (alexaSMAPI_baseURL params Hn) as [smapi [Hc Hb]].
  exists smapi. split; [exact Hc|]. rewrite Hb.
  unfold hasProperty. rewrite Hl. apply getMember_own. exact Hl.
Qed.

(** A region that is neither in the table nor the name of a member of
    [Object.prototype] falls back to the url of [NA]; so does an absent
    one. *)
Lemma region_fallback (params : Value) :
  params <> VNull ->
  lookup (toStr (getMember (orEmpty params) "region")) BASE_URLS = None ->
  inherited (toStr (getMember (orEmpty params) "region")) = false ->
  exists smapi : Client,
    alexaSMAPI params = Normal smapi
    /\ baseURL (client smapi) = VStr "https://api.amazonalexa.com".
Proof.
  intros Hn Hl Hi. destruct (alexaSMAPI_baseURL params Hn) as [smapi [Hc Hb]].
  exists smapi. split; [exact Hc|]. rewrite Hb.
  unfold hasProperty. rewrite Hl, Hi. reflexivity.
Qed.

Example region_absent :
  alexaSMAPI VUndefined
  = Normal {| version := VStr "v1";
              client := {| baseURL := VStr "https://api.amazonalexa.com";
                           instance_headers :=
                             [ ("Content-Type", VStr "application/json");
                               ("Accept", VStr "application/json") ] |} |}.
Proof. reflexivity. Qed.

(** C7. The fallback to the primary region misses the region values that
    name a member of [Object.prototype]: [params.region in BASE_URLS] holds
    for them, although the table has no such code, and the base url becomes
    the inherited member.  For [{region: 'toString'}] the client is
    constructed with the function [Object.prototype.toString] as its base
    url, not with the url of [NA]. *)
Theorem C7_inherited_region_is_not_defaulted :
  lookup "toString" BASE_URLS = None
  /\ hasProperty BASE_URLS "toString" = true
  /\ alexaSMAPI (VObj [("region", VStr "toString")])
     = Normal {| version := VStr "v1";
                 client := {| baseURL := VNative "toString";
                              instance_headers :=
                                [ ("Content-Type", VStr "application/json");
                                  ("Accept", VStr "application/json") ] |} |}
  /\ VNative "toString" <> VStr "https://api.amazonalexa.com".
Proof.
  repeat split. discriminate.
Qed.

(* ================================================================== *)
(** ** The error handlers of the suite *)
(* ================================================================== *)

Lemma errorSummary_object (e : Props) :
  errorSummary (VObj e)
  = Normal (VObj [ ("status", getMember (VObj e) "status");
                   ("statusText", getMember (VObj e) "statusText");
                   ("data", getMember (VObj e) "data") ]).
Proof. reflexivity. Qed.

Lemma getProp_defined (v : Value) (k : string) :
  v <> VUndefined -> v <> VNull -> getProp v k = Normal (getMember v k).
Proof.
  intros Hu Hn. destruct v; try reflexivity; contradiction.
Qed.

(** On a 429 whose payload is neither [null] nor [undefined] and
    carries a message that prints, [retry] announces the pause, sleeps
    [RETRY_TIMEOUT] and resolves to [undefined], which no expectation of
    the suite accepts. *)
Lemma retry_rate_limited (e : Props) (payload : Value) :
  getMember (VObj e) "status" = VNum 429 ->
  getMember (VObj e) "data" = payload ->
  payload <> VUndefined -> payload <> VNull ->
  printable (getMember payload "message") = true ->
  retry (VObj e)
  = ([ ConsoleLog (Text (operation_status_text (VNum 429)
                           (getMember payload "message") RETRY_TIMEOUT));
       Slept RETRY_TIMEOUT ],
     Normal VUndefined).
Proof.
  intros Hs Hd Hu Hn _. unfold retry. rewrite errorSummary_object.
  rewrite Hs, Hd. cbn [lift bind].
  replace (getMember (VObj [("status", VNum 429);
                            ("statusText", getMember (VObj e) "statusText");
                            ("data", payload)]) "status")
    with (VNum 429) by reflexivity.
  replace (getMember (VObj [("status", VNum 429);
                            ("statusText", getMember (VObj e) "statusText");
                            ("data", payload)]) "data")
    with payload by reflexivity.
  cbn [strictEquals Z.eqb Pos.eqb].
  rewrite (getProp_defined payload "message" Hu Hn).
  reflexivity.
Qed.

(** On any other status [retry] dumps the summary and returns it, without
    sleeping. *)
Lemma retry_other_status (e : Props) :
  strictEquals (getMember (VObj e) "status") (VNum 429) = false ->
  retry (VObj e)
  = ([ ConsoleLog (Json (VObj [ ("status", getMember (VObj e) "status");
                                ("statusText", getMember (VObj e) "statusText");
                                ("data", getMember (VObj e) "data") ])) ],
     Normal (VObj [ ("status", getMember (VObj e) "status");
                    ("statusText", getMember (VObj e) "statusText");
                    ("data", getMember (VObj e) "data") ])).
Proof.
  intros Hs. unfold retry. rewrite errorSummary_object. cbn [lift bind].
  replace (getMember (VObj [("status", getMember (VObj e) "status");
                            ("statusText", getMember (VObj e) "statusText");
                            ("data", getMember (VObj e) "data")]) "status")
    with (getMember (VObj e) "status") by reflexivity.
  rewrite Hs. reflexivity.
Qed.

(** C2. A 429 whose payload is [null] is not slept on: composing the
    announcement reads [summary.data.message], the read throws a
    [TypeError], and [retry] ends there, having logged nothing and slept
    not at all. *)
Theorem C2_retry_throws_on_null_payload :
  errorSummary rate_limited_null_body = Normal rate_limited_null_body
  /\ getMember rate_limited_null_body "status" = VNum 429
  /\ retry rate_limited_null_body = ([], Thrown TypeError).
Proof. repeat split. Qed.

(** On a status other than 200 that prints, with a payload that is
    neither [null] nor [undefined] and carries a message that prints,
    [waitOnCertification] dumps the summary, announces the pause, sleeps
    [WITHDRAWAL_TIMEOUT] and resolves to [undefined]. *)
Lemma waitOnCertification_waits (e : Props) (payload : Value) :
  strictEquals (getMember (VObj e) "status") (VNum 200) = false ->
  getMember (VObj e) "data" = payload ->
  payload <> VUndefined -> payload <> VNull ->
  printable (getMember (VObj e) "status") = true ->
  printable (getMember payload "message") = true ->
  waitOnCertification (VObj e)
  = ([ ConsoleLog (Json (VObj [ ("status", getMember (VObj e) "status");
                                ("statusText", getMember (VObj e) "statusText");
                                ("data", payload) ]));
       ConsoleLog (Text (operation_status_text (getMember (VObj e) "status")
                           (getMember payload "message") WITHDRAWAL_TIMEOUT));
       Slept WITHDRAWAL_TIMEOUT ],
     Normal VUndefined).
Proof.
  intros Hs Hd Hu Hn _ _. unfold waitOnCertification.
  rewrite errorSummary_object. rewrite Hd. cbn [lift bind].
  replace (getMember (VObj [("status", getMember (VObj e) "status");
                            ("statusText", getMember (VObj e) "statusText");
                            ("data", payload)]) "status")
    with (getMember (VObj e) "status") by reflexivity.
  replace (getMember (VObj [("status", getMember (VObj e) "status");
                            ("statusText", getMember (VObj e) "statusText");
                            ("data", payload)]) "data")
    with payload by reflexivity.
  rewrite Hs. cbn [negb].
  rewrite (getProp_defined payload "message" Hu Hn).
  reflexivity.
Qed.

(** On status 200 it returns the summary at once. *)
Lemma waitOnCertification_done (e : Props) :
  getMember (VObj e) "status" = VNum 200 ->
  waitOnCertification (VObj e)
  = ([], Normal (VObj [ ("status", VNum 200);
                        ("statusText", getMember (VObj e) "statusText");
                        ("data", getMember (VObj e) "data") ])).
Proof.
  intros Hs. unfold waitOnCertification.
  rewrite errorSummary_object, Hs. reflexivity.
Qed.

Lemma WITHDRAWAL_TIMEOUT_one_minute : WITHDRAWAL_TIMEOUT = (60 * 1000)%Z.
Proof. reflexivity. Qed.

(** C3. A status other than 200 whose payload is [null] is not waited on:
    after the dump of the summary, composing the announcement reads
    [summary.data.message], the read throws a [TypeError], and
    [waitOnCertification] ends there without sleeping. *)
Theorem C3_waitOnCertification_throws_on_null_payload :
  errorSummary server_error_null_body = Normal server_error_null_body
  /\ strictEquals (getMember server_error_null_body "status") (VNum 200)
     = false
  /\ waitOnCertification server_error_null_body
     = ([ConsoleLog (Json server_error_null_body)], Thrown TypeError).
Proof. repeat split. Qed.

(* ================================================================== *)
(** ** The completion pollers *)
(* ================================================================== *)

Lemma cbind_Normal {A} (c : Completion A) : cbind c (fun x => Normal x) = c.
Proof. destruct c; reflexivity. Qed.

Lemma supported_cases (v : string) :
  In v SUPPORTED_VERSIONS -> v = VERSION_0 \/ v = VERSION_1.
Proof.
  simpl. intros [H | [H | []]]; auto.
Qed.

(** The terminal values of the two tables. *)
Lemma terminal_value_table (target : Target) (v : string) :
  In v SUPPORTED_VERSIONS ->
  getMember (VObj (READY target)) v = VStr (terminal_value target v).
Proof.
  intros Hv. destruct (supported_cases v Hv) as [-> | ->];
    destruct target; reflexivity.
Qed.

Lemma deleteProp_defined (v : Value) (k k' : string) (x : Value) :
  getProp v k = Normal x -> exists v', deleteProp v k' = Normal v'.
Proof.
  destruct v; simpl; intros H; try discriminate; eauto.
Qed.

(** The pollers read the status at the path of the version. *)
Lemma statusOf_reads_path
    (locale : string) (target : Target) (v : string) (response : Value) :
  In v SUPPORTED_VERSIONS ->
  cmap fst (statusOf locale target v response)
  = readPath response (status_path locale target v).
Proof.
  intros Hv. destruct (supported_cases v Hv) as [-> | ->];
    destruct target; unfold statusOf, cmap, skillStatus, modelStatus;
    cbn [String.eqb Ascii.eqb Bool.eqb VERSION_0 VERSION_1 status_path readPath].
  - destruct (getProp response "manifest") as [m|]; cbn [cbind]; [|reflexivity].
    destruct (getProp m "lastModified") as [l|]; cbn [cbind]; [|reflexivity].
    destruct (getProp l "status"); reflexivity.
  - destruct (getProp response "status"); reflexivity.
  - destruct (getProp response "manifest") as [m|]; cbn [cbind]; [|reflexivity].
    destruct (getProp m "lastUpdateRequest") as [l|]; cbn [cbind];
      [|reflexivity].
    destruct (getProp l "status"); reflexivity.
  - destruct (getProp response "interactionModel") as [im|]; cbn [cbind];
      [|reflexivity].
    destruct (getProp im locale) as [entry|]; cbn [cbind]; [|reflexivity].
    destruct (getProp entry "lastUpdateRequest") as [l|] eqn:El; cbn [cbind];
      [|reflexivity].
    destruct (getProp l "status") as [st|]; cbn [cbind]; [|reflexivity].
    destruct (deleteProp_defined entry _ "eTag" _ El) as [entry' ->].
    reflexivity.
Qed.

(** One step of a poller on a response whose status can be read. *)
Lemma poll_step (locale : string) (target : Target) (v : string)
    (response status response' : Value) :
  statusOf locale target v response = Normal (status, response') ->
  poll locale target v response
  = if strictEquals status (getMember (VObj (READY target)) v)
    then ([ConsoleLog (Text (building_text (what target) status false))],
          Normal response')
    else ([ConsoleLog (Text (building_text (what target) status true));
           Slept RETRY_TIMEOUT],
          Normal VUndefined).
Proof.
  destruct target; unfold statusOf, poll, cmap.
  - unfold waitOnSkill.
    destruct (skillStatus v response) as [st|]; cbn [cbind]; [|discriminate].
    intros H; inversion H; subst. cbn [showResponse LOG_RESPONSES ret lift bind].
    cbn [READY what].
    destruct (strictEquals status (getMember (VObj SKILL_READY) v));
      reflexivity.
  - unfold waitOnModel. intros ->.
    cbn [showResponse LOG_RESPONSES ret lift bind fst snd READY what].
    destruct (strictEquals status (getMember (VObj MODEL_READY) v));
      reflexivity.
Qed.

(** A poller whose status path cannot be read throws what the read
    threw. *)
Lemma poll_unreadable (locale : string) (target : Target) (v : string)
    (response e : Value) :
  statusOf locale target v response = Thrown e ->
  poll locale target v response = ([], Thrown e).
Proof.
  destruct target; unfold statusOf, poll, cmap.
  - unfold waitOnSkill.
    destruct (skillStatus v response); cbn [cbind]; [discriminate|].
    intros H; inversion H; subst. reflexivity.
  - unfold waitOnModel. intros ->. reflexivity.
Qed.

(** The skill poller and, under the legacy version, the model poller
    leave the response as it is. *)
Lemma statusOf_unchanged (locale : string) (target : Target) (v : string)
    (response status response' : Value) :
  target = Skill \/ v = VERSION_0 ->
  statusOf locale target v response = Normal (status, response') ->
  response' = response.
Proof.
  intros Hc. destruct target; unfold statusOf, cmap.
  - destruct (skillStatus v response); cbn [cbind]; [|discriminate].
    intros H; inversion H; reflexivity.
  - destruct Hc as [Hc | ->]; [discriminate|].
    unfold modelStatus. cbn [String.eqb Ascii.eqb Bool.eqb VERSION_0].
    destruct (getProp response "status"); cbn [cbind]; [|discriminate].
    intros H; inversion H; reflexivity.
Qed.

(** Under the current version the model poller deletes the [eTag] of the
    locale's entry from the response. *)
Lemma modelStatus_deletes_eTag
    (locale : string) (r im entry : Props) (status response' : Value) :
  lookup "interactionModel" r = Some (VObj im) ->
  lookup locale im = Some (VObj entry) ->
  modelStatus locale VERSION_1 (VObj r) = Normal (status, response') ->
  response' =
  VObj (store "interactionModel"
          (VObj (store locale (VObj (remove "eTag" entry)) im)) r).
Proof.
  intros Hr Him. unfold modelStatus.
  cbn [String.eqb Ascii.eqb Bool.eqb VERSION_0 VERSION_1].
  rewrite getProp_object, (getMember_own _ _ _ Hr). cbn [cbind].
  rewrite getProp_object, (getMember_own _ _ _ Him). cbn [cbind].
  rewrite getProp_object. cbn [cbind].
  destruct (getProp (getMember (VObj entry) "lastUpdateRequest") "status");
    cbn [cbind deleteProp]; [|discriminate].
  intros H; inversion H; subst.
  unfold write_back. rewrite Hr, Him. reflexivity.
Qed.

(** Without an [eTag] in the entry nothing changes. *)
Lemma modelStatus_without_eTag
    (locale : string) (r im entry : Props) (status response' : Value) :
  lookup "interactionModel" r = Some (VObj im) ->
  lookup locale im = Some (VObj entry) ->
  lookup "eTag" entry = None ->
  modelStatus locale VERSION_1 (VObj r) = Normal (status, response') ->
  response' = VObj r.
Proof.
  intros Hr Him He H.
  rewrite (modelStatus_deletes_eTag _ _ _ _ _ _ Hr Him H).
  rewrite (remove_absent _ _ He).
  rewrite (store_same _ _ _ Him), (store_same _ _ _ Hr). reflexivity.
Qed.

(** *** The tests that poll *)

Lemma readPath_pathval (path : list string) (v x : Value) :
  readPath v path = Normal x -> pathval v path = x.
Proof.
  revert v. induction path as [|k path IH]; intros v; simpl.
  - intros H; inversion H; reflexivity.
  - destruct v; simpl; try discriminate; apply IH.
Qed.

Lemma status_test_settle (locale : string) (target : Target) (client : Client)
    (v : string) (skillId : Value) (reply : Response) :
  settle (beforeEach (status_test locale target client v skillId))
         (Replied reply)
  = Fulfilled (data reply).
Proof. destruct target; reflexivity. Qed.

Lemma status_test_onFulfilled (locale : string) (target : Target)
    (client : Client) (v : string) (skillId : Value) :
  onFulfilled (status_test locale target client v skillId)
  = poll locale target v.
Proof. destruct target; reflexivity. Qed.

Lemma status_test_onRejected (locale : string) (target : Target)
    (client : Client) (v : string) (skillId : Value) :
  onRejected (status_test locale target client v skillId) = retry.
Proof. destruct target; reflexivity. Qed.

(** No expectation of the status tests accepts [undefined]. *)
Lemma expectation_undefined (locale : string) (target : Target)
    (client : Client) (v : string) (skillId : Value) :
  In v SUPPORTED_VERSIONS ->
  expectation (status_test locale target client v skillId)
              (Fulfilled VUndefined) = false.
Proof.
  intros Hv. destruct (supported_cases v Hv) as [-> | ->];
    destruct target; reflexivity.
Qed.

(** The skill tests and the legacy model test accept a response whose
    status, at the path of the version, is the terminal value. *)
Lemma expectation_terminal (locale : string) (target : Target)
    (client : Client) (v : string) (skillId response : Value) :
  In v SUPPORTED_VERSIONS ->
  target = Skill \/ v = VERSION_0 ->
  readPath response (status_path locale target v)
    = Normal (getMember (VObj (READY target)) v) ->
  expectation (status_test locale target client v skillId)
              (Fulfilled response) = true.
Proof.
  intros Hv Hc Hp. apply readPath_pathval in Hp.
  destruct (supported_cases v Hv) as [-> | ->]; destruct target;
    try (destruct Hc as [Hc | Hc]; discriminate);
    unfold status_test, skill_status_test, model_status_test, have_property;
    cbn [expectation String.eqb Ascii.eqb Bool.eqb VERSION_0 VERSION_1
         have_nested_property];
    cbn [status_path String.eqb Ascii.eqb Bool.eqb VERSION_0 VERSION_1] in Hp;
    rewrite Hp; reflexivity.
Qed.

Lemma run_failed_attempt (t : Test) (server : nat -> Transport)
    (n retries : nat) (trace : list Event) :
  attempt t (server n) = (trace, false) ->
  run (S retries) t server n
  = ((trace ++ fst (run retries t server (S n)))%list,
     snd (run retries t server (S n))).
Proof.
  intros Ha. cbn [run]. rewrite Ha.
  destruct (run retries t server (S n)); reflexivity.
Qed.

Lemma run_passed_attempt (t : Test) (server : nat -> Transport)
    (n retries : nat) (trace : list Event) :
  attempt t (server n) = (trace, true) ->
  run retries t server n = (trace, true).
Proof.
  intros Ha. destruct retries; cbn [run]; rewrite Ha; reflexivity.
Qed.

(** Every attempt opens with the request of [beforeEach]. *)
Lemma attempt_issues (t : Test) (reply : Transport) :
  exists rest, fst (attempt t reply) = Issued (request (beforeEach t)) :: rest.
Proof.
  unfold attempt.
  destruct (match settle (beforeEach t) reply with
            | Fulfilled v => onFulfilled t v
            | Rejected e => onRejected t e
            end) as [trace c].
  eexists; reflexivity.
Qed.

Lemma run_issues (t : Test) (server : nat -> Transport) (n retries : nat) :
  exists rest,
    fst (run retries t server n) = Issued (request (beforeEach t)) :: rest.
Proof.
  destruct (attempt_issues t (server n)) as [rest Hr].
  destruct (attempt t (server n)) as [trace passed] eqn:Ha.
  simpl in Hr. subst trace. destruct passed.
  - rewrite (run_passed_attempt _ _ _ _ _ Ha). eexists; reflexivity.
  - destruct retries.
    + cbn [run]. rewrite Ha. eexists; reflexivity.
    + rewrite (run_failed_attempt _ _ _ _ _ Ha). eexists; reflexivity.
Qed.

(** *** The interval never grows *)

Lemma fixed_interval_app (a b : list Event) :
  fixed_interval a -> fixed_interval b -> fixed_interval (a ++ b)%list.
Proof.
  intros Ha Hb ms Hin. apply in_app_or in Hin. destruct Hin; auto.
Qed.

Lemma fixed_interval_cons (e : Event) (a : list Event) :
  (forall ms, e = Slept ms -> ms = RETRY_TIMEOUT) ->
  fixed_interval a -> fixed_interval (e :: a).
Proof.
  intros He Ha ms [Hin | Hin]; auto.
Qed.

Ltac interval :=
  repeat first
    [ apply fixed_interval_cons;
      [ let ms := fresh in let H := fresh in
        intros ms H; first [discriminate H | inversion H; reflexivity] | ]
    | intros ? [] ].

Lemma retry_fixed_interval (error : Value) :
  fixed_interval (fst (retry error)).
Proof.
  unfold retry. destruct (errorSummary error) as [summary|];
    cbn [lift bind]; [|interval].
  destruct (strictEquals (getMember summary "status") (VNum 429)).
  - destruct (getProp (getMember summary "data") "message");
      cbn [lift bind fst]; interval.
  - cbn [fst]. interval.
Qed.

Lemma poll_fixed_interval (locale : string) (target : Target) (v : string)
    (response : Value) :
  fixed_interval (fst (poll locale target v response)).
Proof.
  destruct (statusOf locale target v response) as [[status response']|e]
    eqn:Es.
  - rewrite (poll_step _ _ _ _ _ _ Es).
    destruct (strictEquals status (getMember (VObj (READY target)) v));
      cbn [fst]; interval.
  - rewrite (poll_unreadable _ _ _ _ _ Es). cbn [fst]. interval.
Qed.

Lemma status_attempt_fixed_interval (locale : string) (target : Target)
    (client : Client) (v : string) (skillId : Value) (reply : Transport) :
  fixed_interval
    (fst (attempt (status_test locale target client v skillId) reply)).
Proof.
  unfold attempt.
  rewrite status_test_onFulfilled, status_test_onRejected.
  destruct (settle (beforeEach (status_test locale target client v skillId))
                   reply) as [x | e].
  - pose proof (poll_fixed_interval locale target v x) as Hp.
    destruct (poll locale target v x) as [trace c]. cbn [fst] in *.
    apply fixed_interval_cons; [discriminate | exact Hp].
  - pose proof (retry_fixed_interval e) as Hp.
    destruct (retry e) as [trace c]. cbn [fst] in *.
    apply fixed_interval_cons; [discriminate | exact Hp].
Qed.

Lemma run_fixed_interval (t : Test) (server : nat -> Transport)
    (retries : nat) :
  (forall reply, fixed_interval (fst (attempt t reply))) ->
  forall n, fixed_interval (fst (run retries t server n)).
Proof.
  intros Ht. induction retries as [|retries IH]; intros n.
  - cbn [run]. pose proof (Ht (server n)) as Ha.
    destruct (attempt t (server n)) as [trace passed].
    destruct passed; exact Ha.
  - pose proof (Ht (server n)) as Ha.
    destruct (attempt t (server n)) as [trace passed] eqn:Ea.
    destruct passed.
    + rewrite (run_passed_attempt _ _ _ _ _ Ea). exact Ha.
    + rewrite (run_failed_attempt _ _ _ _ _ Ea). cbn [fst].
      apply fixed_interval_app; [exact Ha | apply IH].
Qed.

Lemma status_attempt_again (locale : string) (target : Target) (client : Client)
    (v : string) (skillId : Value) (reply : Response)
    (status response' : Value) :
  In v SUPPORTED_VERSIONS ->
  statusOf locale target v (data reply) = Normal (status, response') ->
  strictEquals status (getMember (VObj (READY target)) v) = false ->
  attempt (status_test locale target client v skillId) (Replied reply)
  = ([ Issued (request
                 (beforeEach (status_test locale target client v skillId)));
       ConsoleLog (Text (building_text (what target) status true));
       Slept RETRY_TIMEOUT ],
     false).
Proof.
  intros Hv Hs Hr. unfold attempt.
  rewrite status_test_settle, status_test_onFulfilled.
  rewrite (poll_step _ _ _ _ _ _ Hs), Hr. cbn [subject_of].
  rewrite (expectation_undefined _ _ _ _ _ Hv). reflexivity.
Qed.

Lemma status_attempt_terminal (locale : string) (target : Target)
    (client : Client) (v : string) (skillId : Value) (reply : Response)
    (status : Value) :
  In v SUPPORTED_VERSIONS ->
  target = Skill \/ v = VERSION_0 ->
  statusOf locale target v (data reply) = Normal (status, data reply) ->
  strictEquals status (getMember (VObj (READY target)) v) = true ->
  attempt (status_test locale target client v skillId) (Replied reply)
  = ([ Issued (request
                 (beforeEach (status_test locale target client v skillId)));
       ConsoleLog (Text (building_text (what target) status false)) ],
     true).
Proof.
  intros Hv Hc Hs Hr. unfold attempt.
  rewrite status_test_settle, status_test_onFulfilled.
  rewrite (poll_step _ _ _ _ _ _ Hs), Hr. cbn [subject_of].
  rewrite (expectation_terminal _ _ _ _ _ _ Hv Hc); [reflexivity|].
  rewrite <- (statusOf_reads_path locale target v (data reply) Hv), Hs.
  unfold cmap. cbn [cbind fst].
  rewrite (terminal_value_table _ _ Hv) in *.
  apply strictEquals_string in Hr. rewrite Hr. reflexivity.
Qed.

(** C1, as the code has it.  For a status-check response whose status
    path can be read, the poller reads the status at the path of the
    version and compares it with the terminal value of the version's table.
    If they differ it announces the pause, sleeps [RETRY_TIMEOUT] and
    resolves to [undefined]; the test's expectation then fails and, while
    retries remain, mocha runs the test again, which issues the same status
    request.  If they are equal the poller returns the response: as it came
    for a skill and for a model under the legacy version, and, for a model
    under the current version, with the [eTag] of the locale's entry deleted
    from it; a skill test or legacy model test ends there with no further
    request.  Every sleep of a run lasts [RETRY_TIMEOUT], however many
    attempts were made.  The status is one the log line can print: a
    primitive value. *)
Theorem C1_status_polling
    (locale : string) (target : Target) (client : Client) (v : string)
    (skillId : Value) (server : nat -> Transport) (n retries : nat)
    (reply : Response) (status response' : Value) :
  In v SUPPORTED_VERSIONS ->
  server n = Replied reply ->
  statusOf locale target v (data reply) = Normal (status, response') ->
  printable status = true ->
  readPath (data reply) (status_path locale target v) = Normal status
  /\ getMember (VObj (READY target)) v = VStr (terminal_value target v)
  /\ poll locale target v (data reply)
     = (if strictEquals status (VStr (terminal_value target v))
        then ([ConsoleLog (Text (building_text (what target) status false))],
              Normal response')
        else ([ConsoleLog (Text (building_text (what target) status true));
               Slept RETRY_TIMEOUT],
              Normal VUndefined))
  /\ (target = Skill \/ v = VERSION_0 -> response' = data reply)
  /\ (forall r im entry : Props,
        target = Model -> v = VERSION_1 -> data reply = VObj r ->
        lookup "interactionModel" r = Some (VObj im) ->
        lookup locale im = Some (VObj entry) ->
        response' =
        VObj (store "interactionModel"
                (VObj (store locale (VObj (remove "eTag" entry)) im)) r))
  /\ (strictEquals status (VStr (terminal_value target v)) = false ->
      run (S retries) (status_test locale target client v skillId) server n
      = (Issued (request
                   (beforeEach (status_test locale target client v skillId)))
         :: ConsoleLog (Text (building_text (what target) status true))
         :: Slept RETRY_TIMEOUT
         :: fst (run retries (status_test locale target client v skillId)
                     server (S n)),
         snd (run retries (status_test locale target client v skillId)
                  server (S n)))
      /\ exists rest,
           fst (run retries (status_test locale target client v skillId)
                    server (S n))
           = Issued (request
                       (beforeEach
                          (status_test locale target client v skillId)))
             :: rest)
  /\ (strictEquals status (VStr (terminal_value target v)) = true ->
      target = Skill \/ v = VERSION_0 ->
      run retries (status_test locale target client v skillId) server n
      = ([ Issued (request
                     (beforeEach
                        (status_test locale target client v skillId)));
           ConsoleLog (Text (building_text (what target) status false)) ],
         true))
  /\ fixed_interval
       (fst (run retries (status_test locale target client v skillId)
                 server n)).
Proof.
  intros Hv Hn Hs _.
  pose proof (terminal_value_table target v Hv) as Ht.
  split.
  { rewrite <- (statusOf_reads_path locale target v (data reply) Hv), Hs.
    reflexivity. }
  split; [exact Ht|].
  split; [rewrite <- Ht; apply poll_step; exact Hs|].
  split; [intros Hc; exact (statusOf_unchanged _ _ _ _ _ _ Hc Hs)|].
  split.
  { intros r im entry -> -> Hd Hr Him. rewrite Hd in Hs.
    exact (modelStatus_deletes_eTag _ _ _ _ _ _ Hr Him Hs). }
  split.
  { intros Hr. rewrite <- Ht in Hr. split; [|apply run_issues].
    rewrite (run_failed_attempt _ _ _ _
               [ Issued (request (beforeEach
                           (status_test locale target client v skillId)));
                 ConsoleLog (Text (building_text (what target) status true));
                 Slept RETRY_TIMEOUT ]); [reflexivity|].
    rewrite Hn. exact (status_attempt_again _ _ _ _ _ _ _ _ Hv Hs Hr). }
  split.
  { intros Hr Hc. rewrite <- Ht in Hr.
    apply run_passed_attempt. rewrite Hn.
    rewrite (statusOf_unchanged _ _ _ _ _ _ Hc Hs) in Hs.
    exact (status_attempt_terminal _ _ _ _ _ _ _ Hv Hc Hs Hr). }
  apply run_fixed_interval. intros r.
  apply status_attempt_fixed_interval.
Qed.

(** C1 fails as stated: under the current version the model poller does
    not return a built model's response unchanged, it returns it without
    the [eTag] of the locale's entry. *)
Lemma C1_counterexample :
  readPath built_model_with_eTag (status_path "en-US" Model VERSION_1)
    = Normal (VStr "SUCCEEDED")
  /\ getMember (VObj MODEL_READY) VERSION_1 = VStr "SUCCEEDED"
  /\ waitOnModel "en-US" VERSION_1 built_model_with_eTag
     = ([ConsoleLog (Text "---> Model building: SUCCEEDED <---")],
        Normal built_model_without_eTag)
  /\ built_model_without_eTag <> built_model_with_eTag.
Proof.
  repeat split. discriminate.
Qed.

Lemma C1_witness :
  (In "v1" SUPPORTED_VERSIONS
   /\ statusOf "en-US" Skill "v1" building_skill
      = Normal (VStr "IN_PROGRESS", building_skill)
   /\ printable (VStr "IN_PROGRESS") = true
   /\ strictEquals (VStr "IN_PROGRESS") (VStr (terminal_value Skill "v1"))
      = false)
  /\ poll "en-US" Skill "v1" building_skill
     = ([ ConsoleLog
            (Text
               "---> Skill building: IN_PROGRESS - will sleep for 10s & retry <---");
          Slept 10000 ],
        Normal VUndefined)
  /\ (exists rest,
        fst (run 9 (status_test "en-US" Skill sample_client "v1"
                      (VStr "amzn1.ask.skill.1"))
                 (fun _ => Replied (replied building_skill)) 1)
        = Issued (request
                    (beforeEach
                       (status_test "en-US" Skill sample_client "v1"
                          (VStr "amzn1.ask.skill.1"))))
          :: rest)
  /\ fixed_interval
       (fst (run MAX_RETRIES
               (status_test "en-US" Skill sample_client "v1"
                  (VStr "amzn1.ask.skill.1"))
               (fun _ => Replied (replied building_skill)) 0))
  /\ (statusOf "en-US" Model "v1" built_model_with_eTag
      = Normal (VStr "SUCCEEDED", built_model_without_eTag)
      /\ poll "en-US" Model "v1" built_model_with_eTag
         = ([ConsoleLog (Text "---> Model building: SUCCEEDED <---")],
            Normal built_model_without_eTag)).
Proof.
  assert (Hv : In "v1" SUPPORTED_VERSIONS) by (simpl; auto).
  pose proof
    (C1_status_polling "en-US" Skill sample_client "v1"
       (VStr "amzn1.ask.skill.1")
       (fun _ => Replied (replied building_skill)) 0 9
       (replied building_skill) (VStr "IN_PROGRESS") building_skill
       Hv eq_refl eq_refl eq_refl)
    as (_ & _ & Hpoll & _ & _ & Hagain & _ & _).
  pose proof
    (C1_status_polling "en-US" Skill sample_client "v1"
       (VStr "amzn1.ask.skill.1")
       (fun _ => Replied (replied building_skill)) 0 MAX_RETRIES
       (replied building_skill) (VStr "IN_PROGRESS") building_skill
       Hv eq_refl eq_refl eq_refl)
    as (_ & _ & _ & _ & _ & _ & _ & Hfixed).
  pose proof
    (C1_status_polling "en-US" Model sample_client "v1"
       (VStr "amzn1.ask.skill.1")
       (fun _ => Replied (replied built_model_with_eTag)) 0 MAX_RETRIES
       (replied built_model_with_eTag) (VStr "SUCCEEDED")
       built_model_without_eTag
       Hv eq_refl eq_refl eq_refl)
    as (_ & _ & Hmodel & _ & _ & _ & _ & _).
  split; [split; [exact Hv | repeat split]|].
  split; [exact Hpoll|].
  split; [exact (proj2 (Hagain eq_refl))|].
  split; [exact Hfixed|].
  split; [reflexivity | exact Hmodel].
Defined.

(** The deletion is what lets the model test of the current version
    pass: its expectation is a deep equality with an object that has no
    [eTag]. *)
Example model_test_passes_without_eTag :
  run MAX_RETRIES
      (status_test "en-US" Model sample_client "v1" (VStr "amzn1.ask.skill.1"))
      (fun _ => Replied (replied built_model_with_eTag)) 0
  = ([ Issued (request (interactionModel_getStatus sample_client
                          (VStr "amzn1.ask.skill.1") (VStr "en-US")));
       ConsoleLog (Text "---> Model building: SUCCEEDED <---") ],
     true).
Proof. reflexivity. Qed.

(** *** Rate limiting under [this.retries] *)

(** A test whose rejection handler is [retry] and whose expectation
    refuses [undefined] answers a 429 whose payload can be read and
    carries a message that prints by sleeping [RETRY_TIMEOUT] and, while
    retries remain, by running again, which issues the request of
    [beforeEach] anew. *)
Lemma rate_limited_run_again (t : Test) (server : nat -> Transport)
    (n retries : nat) (e : Props) (payload : Value) :
  onRejected t = retry ->
  expectation t (Fulfilled VUndefined) = false ->
  settle (beforeEach t) (server n) = Rejected (VObj e) ->
  getMember (VObj e) "status" = VNum 429 ->
  getMember (VObj e) "data" = payload ->
  payload <> VUndefined -> payload <> VNull ->
  printable (getMember payload "message") = true ->
  run (S retries) t server n
  = (Issued (request (beforeEach t))
     :: ConsoleLog (Text (operation_status_text (VNum 429)
                            (getMember payload "message") RETRY_TIMEOUT))
     :: Slept RETRY_TIMEOUT
     :: fst (run retries t server (S n)),
     snd (run retries t server (S n))).
Proof.
  intros Hh He Hs H429 Hd Hu Hn Hm.
  rewrite (run_failed_attempt _ _ _ _
             [ Issued (request (beforeEach t));
               ConsoleLog (Text (operation_status_text (VNum 429)
                                   (getMember payload "message")
                                   RETRY_TIMEOUT));
               Slept RETRY_TIMEOUT ]); [reflexivity|].
  unfold attempt. rewrite Hs, Hh.
  rewrite (retry_rate_limited e payload H429 Hd Hu Hn Hm). cbn [subject_of].
  rewrite He. reflexivity.
Qed.

(** *** Runs of the suite *)

(** A skill that is building, then a rate-limited status check, then the
    built skill: three requests, all the same, two pauses of
    [RETRY_TIMEOUT], and the test passes. *)
Example skill_poll_run :
  run MAX_RETRIES
      (status_test "en-US" Skill sample_client "v1" (VStr "amzn1.ask.skill.1"))
      (fun n =>
         match n with
         | 0 => Replied (replied building_skill)
         | 1 => Failed [("response",
                         VObj [ ("status", VNum 429);
                                ("statusText", VStr "Too Many Requests");
                                ("data", VObj [("message", VStr "slow down")]) ])]
         | _ => Replied (replied
                  (VObj [("manifest",
                     VObj [("lastUpdateRequest",
                            VObj [("status", VStr "SUCCEEDED")])])]))
         end) 0
  = ([ Issued (mkRequest GET (VStr "/v1/skills/amzn1.ask.skill.1/status")
                 (Some (VObj [("params", VObj [])])));
       ConsoleLog (Text
         "---> Skill building: IN_PROGRESS - will sleep for 10s & retry <---");
       Slept 10000;
       Issued (mkRequest GET (VStr "/v1/skills/amzn1.ask.skill.1/status")
                 (Some (VObj [("params", VObj [])])));
       ConsoleLog (Text
         "---> Operation status: 429 (slow down) - will sleep for 10s & retry <---");
       Slept 10000;
       Issued (mkRequest GET (VStr "/v1/skills/amzn1.ask.skill.1/status")
                 (Some (VObj [("params", VObj [])])));
       ConsoleLog (Text "---> Skill building: SUCCEEDED <---") ],
     true).
Proof. reflexivity. Qed.

(** A skill that never finishes building is asked about once and then
    [MAX_RETRIES] times more; the test fails and the poller raised
    nothing. *)
Example skill_poll_exhausted :
  let outcome :=
    run MAX_RETRIES
        (status_test "en-US" Skill sample_client "v1"
           (VStr "amzn1.ask.skill.1"))
        (fun _ => Replied (replied building_skill)) 0 in
  snd outcome = false
  /\ List.length
       (filter (fun e => match e with Issued _ => true | _ => false end)
               (fst outcome)) = S MAX_RETRIES
  /\ List.length
       (filter (fun e => match e with Slept _ => true | _ => false end)
               (fst outcome)) = S MAX_RETRIES.
Proof. repeat split. Qed.

(* ================================================================== *)
(** ** The adapter: failures, bodies and defaults *)
(* ================================================================== *)

Lemma reject_response_of (error : Props) :
  reject_response error = Rejected (response_of error).
Proof.
  unfold reject_response, response_of, getMember. simpl.
  destruct (lookup "response" error); reflexivity.
Qed.

(** Whatever the verb, a failed request is rejected, never fulfilled, and
    the reason is the [response] the error carries: [undefined] for a
    failure that has no response, such as a network error. *)
Theorem rest_failure_rejects_with_response
    (url parameters : Value) (error : Props) :
  Forall (fun call => settle call (Failed error) = Rejected (response_of error))
    [ rest_head url; rest_get url parameters; rest_post url parameters;
      rest_put url parameters; rest_delete url ].
Proof.
  repeat constructor; apply reject_response_of.
Qed.

(** GET and DELETE fulfil with the body as it came, whatever the headers;
    the query parameters of a GET and the body of a POST or PUT default to
    [{}] only when the caller passed [undefined]: every other value, [null]
    included, is forwarded as it is. *)
Theorem rest_defaults_only_undefined (url parameters : Value) :
  parameters <> VUndefined ->
  request (rest_get url parameters)
    = mkRequest GET url (Some (VObj [("params", parameters)]))
  /\ request (rest_post url parameters) = mkRequest POST url (Some parameters)
  /\ request (rest_put url parameters) = mkRequest PUT url (Some parameters)
  /\ request (rest_get url VUndefined)
     = mkRequest GET url (Some (VObj [("params", VObj [])]))
  /\ request (rest_post url VUndefined) = mkRequest POST url (Some (VObj []))
  /\ request (rest_put url VUndefined) = mkRequest PUT url (Some (VObj []))
  /\ forall response : Response,
       settle (rest_get url parameters) (Replied response)
         = Fulfilled (data response)
       /\ settle (rest_delete url) (Replied response)
         = Fulfilled (data response).
Proof.
  intros Hp.
  assert (Ho : orEmpty parameters = parameters)
    by (destruct parameters; try reflexivity; contradiction).
  unfold rest_get, rest_post, rest_put. cbn [request]. rewrite Ho.
  repeat split.
Qed.

Lemma rest_defaults_only_undefined_witness :
  request (rest_post (VStr "/v1/skills") VNull)
  = mkRequest POST (VStr "/v1/skills") (Some VNull).
Proof.
  exact (proj1 (proj2 (rest_defaults_only_undefined
                         (VStr "/v1/skills") VNull ltac:(discriminate)))).
Defined.

(** A POST whose response body has no own enumerable property (an empty
    string, [null], a number) settles exactly as a PUT does, with
    [{location, etag}]. *)
Theorem post_without_body_properties
    (url parameters : Value) (response : Response) :
  ownEnumerable (data response) = [] ->
  settle (rest_post url parameters) (Replied response)
  = settle (rest_put url parameters) (Replied response).
Proof.
  intros He. cbn [settle rest_post rest_put].
  unfold Object_assign. cbn [fold_left].
  unfold assign1 at 1. rewrite He. reflexivity.
Qed.

Lemma post_without_body_properties_witness :
  settle (rest_post (VStr "/v1/skills/s/submit") VUndefined)
         (Replied (mkResponse 202 "Accepted"
                     [("location", VStr "/v1/skills/s/status")] (VStr "")))
  = settle (rest_put (VStr "/v1/skills/s/submit") VUndefined)
           (Replied (mkResponse 202 "Accepted"
                       [("location", VStr "/v1/skills/s/status")] (VStr ""))).
Proof.
  apply post_without_body_properties. reflexivity.
Defined.

(** The result of a successful POST always owns [location] and [etag],
    whatever the headers and the body: a missing header shows as a property
    holding [undefined]. *)
Theorem post_result_owns_location_and_etag
    (url parameters : Value) (response : Response) :
  exists result : Props,
    settle (rest_post url parameters) (Replied response)
      = Fulfilled (VObj result)
    /\ lookup "location" result <> None
    /\ lookup "etag" result <> None.
Proof.
  eexists. split; [reflexivity|].
  unfold Object_assign. cbn [fold_left].
  rewrite !lookup_assign1. cbn [String.eqb Ascii.eqb Bool.eqb].
  split.
  - destruct (last_binding "location" (ownEnumerable (data response)));
      [discriminate|].
    unfold location_etag. cbn. discriminate.
  - destruct (last_binding "etag" (ownEnumerable (data response)));
      [discriminate|].
    unfold location_etag. cbn. discriminate.
Qed.

(* ================================================================== *)
(** ** Dispatch on a constructed client *)
(* ================================================================== *)

Lemma alexaSMAPI_version_cases (params : Value) :
  params <> VNull ->
  exists smapi : Client,
    alexaSMAPI params = Normal smapi
    /\ (version smapi = VStr VERSION_0 \/ version smapi = VStr VERSION_1).
Proof.
  intros Hn. unfold alexaSMAPI.
  rewrite !getProp_orEmpty by exact Hn. cbn [cbind].
  set (chosen := getMember (orEmpty params) "version").
  eexists. split; [reflexivity|]. cbn [version].
  destruct (includes SUPPORTED_VERSIONS chosen) eqn:Ei.
  - exact (includes_supported _ Ei).
  - right. reflexivity.
Qed.

(** The operations that branch on the version without an [else] never
    fall through on a client that [alexaSMAPI] constructed: each returns a
    request, and every table of urls keyed by version yields one of its two
    urls, never [undefined]. *)
Theorem constructed_client_always_dispatches (params : Value) :
  params <> VNull ->
  exists smapi : Client,
    alexaSMAPI params = Normal smapi
    /\ (forall vendorId manifest,
          skills_create smapi vendorId manifest <> None)
    /\ (forall skillId stage manifest,
          skills_update smapi skillId stage manifest <> None)
    /\ (forall skillId stage locale model,
          interactionModel_update smapi skillId stage locale model <> None)
    /\ (forall v0 v1 : string,
          by_version smapi v0 v1 = VStr v0 \/ by_version smapi v0 v1 = VStr v1).
Proof.
  intros Hn.
  destruct (alexaSMAPI_version_cases params Hn) as [smapi [Hc Hv]].
  exists smapi. split; [exact Hc|].
  unfold skills_create, skills_update, interactionModel_update, by_version,
         is_version.
  destruct Hv as [-> | ->]; repeat split; intros; try discriminate;
    (left; reflexivity) || (right; reflexivity).
Qed.

Lemma constructed_client_always_dispatches_witness :
  exists smapi : Client,
    alexaSMAPI (VObj [("version", VStr "v7"); ("region", VStr "EU")])
      = Normal smapi
    /\ (forall vendorId manifest,
          skills_create smapi vendorId manifest <> None)
    /\ (forall skillId stage manifest,
          skills_update smapi skillId stage manifest <> None)
    /\ (forall skillId stage locale model,
          interactionModel_update smapi skillId stage locale model <> None)
    /\ (forall v0 v1 : string,
          by_version smapi v0 v1 = VStr v0 \/ by_version smapi v0 v1 = VStr v1).
Proof.
  apply (constructed_client_always_dispatches
           (VObj [("version", VStr "v7"); ("region", VStr "EU")])).
  discriminate.
Defined.

(** Under the legacy version the sibling operations remap as the update
    of the interaction model does: the slot after [skillId] is read as the
    locale, respectively as the payload, and the slot after it has no
    effect.  A caller who keeps the current layout [(skillId, stage,
    locale)] on a legacy client therefore asks for the locale named by the
    stage. *)
Theorem legacy_siblings_read_the_stage_slot
    (inst : Instance) (skillId second third : Value) :
  interactionModel_get (mkClient (VStr VERSION_0) inst) skillId second third
    = custom_get
        (VStr ("/v0/skills/" ++ toStr skillId
               ++ "/interactionModel/locales/" ++ toStr second))
        VUndefined
  /\ interactionModel_getEtag (mkClient (VStr VERSION_0) inst)
       skillId second third
     = custom_head
         (VStr ("/v0/skills/" ++ toStr skillId
                ++ "/interactionModel/locales/" ++ toStr second))
  /\ accountLinking_update (mkClient (VStr VERSION_0) inst)
       skillId second third
     = custom_put
         (VStr ("/v0/skills/" ++ toStr skillId ++ "/accountLinkingClient"))
         (VObj [("accountLinkingRequest", second)])
  /\ skills_update (mkClient (VStr VERSION_0) inst) skillId second third
     = Some (custom_put (VStr ("/v0/skills/" ++ toStr skillId))
               (VObj [("skillManifest", second)])).
Proof.
  repeat split.
Qed.

(** What a version has no use for is not sent: the legacy manifest and
    account-linking urls carry no stage, and the status check of a model
    under the current version carries no locale. *)
Theorem unused_arguments_have_no_effect
    (inst : Instance) (skillId a b : Value) :
  skills_getManifest (mkClient (VStr VERSION_0) inst) skillId a
    = skills_getManifest (mkClient (VStr VERSION_0) inst) skillId b
  /\ accountLinking_readInfo (mkClient (VStr VERSION_0) inst) skillId a
     = accountLinking_readInfo (mkClient (VStr VERSION_0) inst) skillId b
  /\ interactionModel_getStatus (mkClient (VStr VERSION_1) inst) skillId a
     = interactionModel_getStatus (mkClient (VStr VERSION_1) inst) skillId b
  /\ url (request (interactionModel_getStatus
                     (mkClient (VStr VERSION_1) inst) skillId a))
     = VStr ("/v1/skills/" ++ toStr skillId
             ++ "/status?resource=interactionModel").
Proof.
  repeat split.
Qed.

(** The client the suite builds for a supported version speaks that
    version against the url of [NA]. *)
Theorem suite_client_speaks_the_version_under_test (v : string) :
  In v SUPPORTED_VERSIONS ->
  smapiClient v
  = Normal {| version := VStr v;
              client := {| baseURL := VStr "https://api.amazonalexa.com";
                           instance_headers :=
                             [ ("Content-Type", VStr "application/json");
                               ("Accept", VStr "application/json") ] |} |}.
Proof.
  intros Hv. destruct (supported_cases v Hv) as [-> | ->]; reflexivity.
Qed.

Lemma suite_client_speaks_the_version_under_test_witness :
  smapiClient "v0"
  = Normal {| version := VStr "v0";
              client := {| baseURL := VStr "https://api.amazonalexa.com";
                           instance_headers :=
                             [ ("Content-Type", VStr "application/json");
                               ("Accept", VStr "application/json") ] |} |}.
Proof.
  apply (suite_client_speaks_the_version_under_test "v0").
  left. reflexivity.
Defined.

(* ================================================================== *)
(** ** The credential *)
(* ================================================================== *)

Lemma refreshToken_cases (token : Value) (axios : Defaults) :
  refreshToken token axios =
  if nonEmptyString token
  then Normal {| defaults_baseURL := defaults_baseURL axios;
                 defaults_Authorization := token |}
  else Thrown (VError "Error" "Invalid token specified!").
Proof.
  unfold refreshToken. rewrite invalid_argument.
  destruct (nonEmptyString token); reflexivity.
Qed.

Lemma setBaseUrl_cases (base : Value) (axios : Defaults) :
  setBaseUrl base axios =
  if nonEmptyString base
  then Normal {| defaults_baseURL := base;
                 defaults_Authorization := defaults_Authorization axios |}
  else Thrown (VError "Error" "Invalid base url specified!").
Proof.
  unfold setBaseUrl. rewrite invalid_argument.
  destruct (nonEmptyString base); reflexivity.
Qed.

Lemma tokens_refresh_replied (response : Response) (axios : Defaults) :
  tokens_refresh_settle (Replied response) axios =
  if nonEmptyString (access_token_of (data response))
  then (Fulfilled (data response),
        {| defaults_baseURL := defaults_baseURL axios;
           defaults_Authorization := access_token_of (data response) |})
  else (Rejected VUndefined, axios).
Proof.
  unfold tokens_refresh_settle, access_token_of.
  destruct (getProp (data response) "access_token") as [token|e] eqn:Eg;
    cbn [cbind].
  - rewrite refreshToken_cases.
    destruct (nonEmptyString token); reflexivity.
  - destruct (data response); simpl in Eg; try discriminate;
      inversion Eg; reflexivity.
Qed.

(** [tokens.refresh] settles in one of three ways.  A reply whose
    [access_token] is a non-empty string fulfils with the reply's body and
    makes that token the credential.  Any other reply (no token, an empty
    or non-string token, a body that is [null]) is rejected with
    [undefined], the exception that said why being dropped by the [catch],
    and leaves the credential alone.  A failed request is rejected with the
    error's response and leaves the credential alone. *)
Theorem tokens_refresh_outcomes
    (response : Response) (error : Props) (axios : Defaults) :
  tokens_refresh_settle (Replied response) axios =
    (if nonEmptyString (access_token_of (data response))
     then (Fulfilled (data response),
           {| defaults_baseURL := defaults_baseURL axios;
              defaults_Authorization := access_token_of (data response) |})
     else (Rejected VUndefined, axios))
  /\ tokens_refresh_settle (Failed error) axios
     = (Rejected (response_of error), axios).
Proof.
  split; [apply tokens_refresh_replied|].
  cbn [tokens_refresh_settle]. rewrite reject_response_of. reflexivity.
Qed.

(** [tokens.refresh] called without parameters throws at once, before any
    request; with parameters it asks for a [refresh_token] grant. *)
Theorem tokens_refresh_body (params : Value) :
  (params = VUndefined \/ params = VNull ->
   tokens_refresh_data params = Thrown TypeError)
  /\ (params <> VUndefined -> params <> VNull ->
      tokens_refresh_data params
      = Normal (VObj [ ("grant_type", VStr "refresh_token");
                       ("refresh_token", getMember params "refreshToken");
                       ("client_id", getMember params "clientId");
                       ("client_secret", getMember params "clientSecret") ])).
Proof.
  split.
  - intros [-> | ->]; reflexivity.
  - intros Hu Hn. unfold tokens_refresh_data.
    rewrite !(getProp_defined params _ Hu Hn). reflexivity.
Qed.

Lemma tokens_refresh_body_witness :
  tokens_refresh_data VUndefined = Thrown TypeError
  /\ tokens_refresh_data
       (VObj [("refreshToken", VStr "Atzr|r"); ("clientId", VStr "id")])
     = Normal (VObj [ ("grant_type", VStr "refresh_token");
                      ("refresh_token", VStr "Atzr|r");
                      ("client_id", VStr "id");
                      ("client_secret", VUndefined) ]).
Proof.
  split.
  - exact (proj1 (tokens_refresh_body VUndefined) (or_introl eq_refl)).
  - exact (proj2 (tokens_refresh_body
                    (VObj [("refreshToken", VStr "Atzr|r");
                           ("clientId", VStr "id")]))
                 ltac:(discriminate) ltac:(discriminate)).
Defined.

Lemma configure_keeps_credential_valid (c : Config) (w : World) :
  (defaults_Authorization (axios_of (configure c w))
     = defaults_Authorization (axios_of w)
   \/ nonEmptyString (defaults_Authorization (axios_of (configure c w)))
      = true)
  /\ (defaults_baseURL (axios_of (configure c w))
        = defaults_baseURL (axios_of w)
      \/ nonEmptyString (defaults_baseURL (axios_of (configure c w)))
         = true).
Proof.
  destruct c as [token | base | reply]; cbn [configure].
  - rewrite refreshToken_cases.
    destruct (nonEmptyString token) eqn:E; cbn; auto.
  - rewrite setBaseUrl_cases.
    destruct (nonEmptyString base) eqn:E; cbn; auto.
  - destruct reply as [response | error].
    + rewrite tokens_refresh_replied.
      destruct (nonEmptyString (access_token_of (data response))) eqn:E;
        cbn; auto.
    + cbn. auto.
Qed.

(** However the configuration operations and token refreshes follow one
    another, and whichever of them fail, the credential and the default
    base url are each either what they were at the start or a non-empty
    string: a failed operation never clears or corrupts them. *)
Theorem configuration_never_stores_an_invalid_value
    (cs : list Config) (w : World) :
  (defaults_Authorization (axios_of (configure_all cs w))
     = defaults_Authorization (axios_of w)
   \/ nonEmptyString (defaults_Authorization (axios_of (configure_all cs w)))
      = true)
  /\ (defaults_baseURL (axios_of (configure_all cs w))
        = defaults_baseURL (axios_of w)
      \/ nonEmptyString (defaults_baseURL (axios_of (configure_all cs w)))
         = true).
Proof.
  unfold configure_all. revert w.
  induction cs as [|c cs IH]; intros w; cbn [fold_left]; [auto|].
  destruct (IH (configure c w)) as [[Ha | Ha] [Hb | Hb]];
    destruct (configure_keeps_credential_valid c w) as [Hc Hd];
    split; try (right; assumption);
    try (rewrite Ha; exact Hc); try (rewrite Hb; exact Hd).
Qed.

(* ================================================================== *)
(** ** The error handlers, for every error *)
(* ================================================================== *)

Lemma strictEquals_number (v : Value) (n : Z) :
  strictEquals v (VNum n) = true -> v = VNum n.
Proof.
  destruct v; simpl; try discriminate.
  intros H. apply Z.eqb_eq in H. subst. reflexivity.
Qed.

(** [errorSummary] throws exactly on [undefined] and [null]; on anything
    else it yields an object with the three properties [status],
    [statusText] and [data] and no other, and summarising a summary changes
    nothing. *)
Theorem errorSummary_is_a_projection (error : Value) :
  (error = VUndefined \/ error = VNull ->
   errorSummary error = Thrown TypeError)
  /\ (error <> VUndefined -> error <> VNull ->
      exists summary : Value,
        errorSummary error = Normal summary
        /\ summary = VObj [ ("status", getMember error "status");
                            ("statusText", getMember error "statusText");
                            ("data", getMember error "data") ]
        /\ errorSummary summary = Normal summary
        /\ forall k, getOwn summary k <> None ->
             k = "status" \/ k = "statusText" \/ k = "data").
Proof.
  split.
  - intros [-> | ->]; reflexivity.
  - intros Hu Hn. eexists. split; [|split; [reflexivity|split]].
    + unfold errorSummary. rewrite !(getProp_defined error _ Hu Hn).
      reflexivity.
    + reflexivity.
    + intros k. cbn [getOwn lookup].
      destruct (String.eqb k "status") eqn:E1;
        [apply String.eqb_eq in E1; auto|].
      destruct (String.eqb k "statusText") eqn:E2;
        [apply String.eqb_eq in E2; auto|].
      destruct (String.eqb k "data") eqn:E3;
        [apply String.eqb_eq in E3; auto|].
      congruence.
Qed.

Lemma errorSummary_is_a_projection_witness :
  errorSummary VUndefined = Thrown TypeError
  /\ exists summary : Value,
       errorSummary (VObj [ ("status", VNum 404); ("headers", VObj []);
                            ("data", VStr "") ]) = Normal summary
       /\ summary = VObj [ ("status", VNum 404); ("statusText", VUndefined);
                           ("data", VStr "") ]
       /\ errorSummary summary = Normal summary
       /\ forall k, getOwn summary k <> None ->
            k = "status" \/ k = "statusText" \/ k = "data".
Proof.
  split.
  - exact (proj1 (errorSummary_is_a_projection VUndefined)
                 (or_introl eq_refl)).
  - exact (proj2 (errorSummary_is_a_projection
                    (VObj [ ("status", VNum 404); ("headers", VObj []);
                            ("data", VStr "") ]))
                 ltac:(discriminate) ltac:(discriminate)).
Defined.

(** The three ways [retry] can end: it throws, it resolves to
    [undefined], or it returns a summary. *)
Lemma retry_cases (error : Value) :
  (exists e, retry error = ([], Thrown e))
  \/ (exists summary message,
        errorSummary error = Normal summary
        /\ getMember summary "status" = VNum 429
        /\ retry error
           = ([ ConsoleLog (Text (operation_status_text (VNum 429) message
                                    RETRY_TIMEOUT));
                Slept RETRY_TIMEOUT ],
              Normal VUndefined))
  \/ (exists summary,
        errorSummary error = Normal summary
        /\ strictEquals (getMember summary "status") (VNum 429) = false
        /\ retry error = ([ConsoleLog (Json summary)], Normal summary)).
Proof.
  unfold retry. destruct (errorSummary error) as [summary|e];
    cbn [lift bind]; [|left; eauto].
  destruct (strictEquals (getMember summary "status") (VNum 429)) eqn:Es.
  - apply strictEquals_number in Es.
    destruct (getProp (getMember summary "data") "message") as [message|e];
      cbn [lift bind]; [|left; eauto].
    right; left. exists summary, message. rewrite Es. auto.
  - right; right. exists summary. auto.
Qed.

(** [retry] sleeps for nothing but a 429: whenever its trace shows a
    sleep, the error had a summary whose status is the number 429, the
    sleep lasted [RETRY_TIMEOUT], and the handler resolved to
    [undefined]. *)
Theorem retry_sleeps_only_when_rate_limited (error : Value) (ms : Z) :
  In (Slept ms) (fst (retry error)) ->
  ms = RETRY_TIMEOUT
  /\ asleep (fst (retry error)) = RETRY_TIMEOUT
  /\ snd (retry error) = Normal VUndefined
  /\ exists summary,
       errorSummary error = Normal summary
       /\ getMember summary "status" = VNum 429.
Proof.
  destruct (retry_cases error)
    as [[e He] | [(summary & message & Hs & H429 & Hr) | (summary & Hs & Hn & Hr)]];
    rewrite ?He, ?Hr; cbn [fst snd In].
  - intros [].
  - intros [H | [H | []]]; [discriminate|]. inversion H.
    repeat split; eauto.
  - intros [H | []]. discriminate.
Qed.

Lemma retry_sleeps_only_when_rate_limited_witness :
  In (Slept 10000) (fst (retry rate_limited))
  /\ asleep (fst (retry rate_limited)) = RETRY_TIMEOUT
  /\ snd (retry rate_limited) = Normal VUndefined.
Proof.
  assert (Hin : In (Slept 10000) (fst (retry rate_limited)))
    by (right; left; reflexivity).
  destruct (retry_sleeps_only_when_rate_limited rate_limited 10000 Hin)
    as (_ & Ha & Hr & _).
  split; [exact Hin | split; [exact Ha | exact Hr]].
Defined.

(** The ways [waitOnCertification] can end. *)
Lemma waitOnCertification_cases (error : Value) :
  (exists trace e, waitOnCertification error = (trace, Thrown e)
                   /\ asleep trace = 0%Z)
  \/ (exists summary message,
        errorSummary error = Normal summary
        /\ strictEquals (getMember summary "status") (VNum 200) = false
        /\ waitOnCertification error
           = ([ ConsoleLog (Json summary);
                ConsoleLog (Text (operation_status_text
                                    (getMember summary "status") message
                                    WITHDRAWAL_TIMEOUT));
                Slept WITHDRAWAL_TIMEOUT ],
              Normal VUndefined))
  \/ (exists summary,
        errorSummary error = Normal summary
        /\ getMember summary "status" = VNum 200
        /\ waitOnCertification error = ([], Normal summary)).
Proof.
  unfold waitOnCertification. destruct (errorSummary error) as [summary|e];
    cbn [lift bind]; [|left; exists [], e; auto].
  destruct (strictEquals (getMember summary "status") (VNum 200)) eqn:Es;
    cbn [negb].
  - apply strictEquals_number in Es. right; right. exists summary. auto.
  - destruct (getProp (getMember summary "data") "message") as [message|e];
      cbn [lift bind showError LOG_ERRORS console_log emit app].
    + right; left. exists summary, message. auto.
    + left. eexists; eexists. split; reflexivity.
Qed.

(** [waitOnCertification] hands back a value other than [undefined] only
    for a status that is exactly the number 200, and then it has neither
    logged nor slept; whenever it resolves to [undefined] it has slept
    [WITHDRAWAL_TIMEOUT], once. *)
Theorem waitOnCertification_returns_only_on_200 (error result : Value) :
  snd (waitOnCertification error) = Normal result ->
  (result <> VUndefined ->
   errorSummary error = Normal result
   /\ getMember result "status" = VNum 200
   /\ fst (waitOnCertification error) = [])
  /\ (result = VUndefined ->
      asleep (fst (waitOnCertification error)) = WITHDRAWAL_TIMEOUT).
Proof.
  destruct (waitOnCertification_cases error)
    as [(trace & e & Hr & _)
       | [(summary & message & Hs & Hn & Hr) | (summary & Hs & H200 & Hr)]];
    rewrite Hr; cbn [fst snd]; intros H; inversion H; subst.
  - split; [intros Hc; contradiction | reflexivity].
  - split; [auto|].
    intros ->. destruct error; simpl in Hs; discriminate.
Qed.

Lemma waitOnCertification_returns_only_on_200_witness :
  asleep (fst (waitOnCertification certification_in_progress))
  = WITHDRAWAL_TIMEOUT
  /\ fst (waitOnCertification
            (VObj [("status", VNum 200); ("data", VNull)])) = [].
Proof.
  split.
  - exact (proj2 (waitOnCertification_returns_only_on_200
                    certification_in_progress VUndefined eq_refl) eq_refl).
  - exact (proj2 (proj2 (proj1
             (waitOnCertification_returns_only_on_200
                (VObj [("status", VNum 200); ("data", VNull)])
                (VObj [ ("status", VNum 200); ("statusText", VUndefined);
                        ("data", VNull) ])
                eq_refl)
             ltac:(discriminate)))).
Defined.

(* ================================================================== *)
(** ** The tests under retries, for every reply *)
(* ================================================================== *)

Lemma rate_limited_run_again_witness :
  run 3 (status_test "en-US" Skill sample_client "v1" (VStr "s"))
        (fun _ => Failed [("response", rate_limited)]) 0
  = (Issued (request (beforeEach
               (status_test "en-US" Skill sample_client "v1" (VStr "s"))))
     :: ConsoleLog (Text (operation_status_text (VNum 429)
                            (getMember (VObj [("message",
                                               VStr "Too many requests")])
                                       "message") RETRY_TIMEOUT))
     :: Slept RETRY_TIMEOUT
     :: fst (run 2 (status_test "en-US" Skill sample_client "v1" (VStr "s"))
                 (fun _ => Failed [("response", rate_limited)]) 1),
     snd (run 2 (status_test "en-US" Skill sample_client "v1" (VStr "s"))
              (fun _ => Failed [("response", rate_limited)]) 1)).
Proof.
  apply (rate_limited_run_again
           (status_test "en-US" Skill sample_client "v1" (VStr "s"))
           (fun _ => Failed [("response", rate_limited)]) 0 2
           [ ("status", VNum 429); ("statusText", VStr "Too Many Requests");
             ("data", VObj [("message", VStr "Too many requests")]) ]
           (VObj [("message", VStr "Too many requests")]));
    first [reflexivity | discriminate].
Defined.

Lemma expectation_rejected (locale : string) (target : Target)
    (client : Client) (v : string) (skillId reason : Value) :
  In v SUPPORTED_VERSIONS ->
  expectation (status_test locale target client v skillId) (Rejected reason)
  = false.
Proof.
  intros Hv. destruct (supported_cases v Hv) as [-> | ->];
    destruct target; reflexivity.
Qed.

(** A status check that fails without a response (a network error) is not
    paused on: the adapter rejects with [undefined], [retry] throws on it
    before logging or sleeping, and the attempt fails at once. *)
Theorem network_failure_fails_without_pause
    (locale : string) (target : Target) (client : Client) (v : string)
    (skillId : Value) (error : Props) :
  In v SUPPORTED_VERSIONS ->
  lookup "response" error = None ->
  attempt (status_test locale target client v skillId) (Failed error)
  = ([Issued (request (beforeEach
                 (status_test locale target client v skillId)))],
     false).
Proof.
  intros Hv He. unfold attempt.
  assert (Hs : settle (beforeEach (status_test locale target client v skillId))
                      (Failed error) = Rejected VUndefined).
  { destruct target; cbn; rewrite reject_response_of;
      unfold response_of; rewrite He; reflexivity. }
  rewrite Hs, status_test_onRejected. cbn [retry errorSummary getProp cbind
                                            lift bind subject_of].
  rewrite (expectation_rejected _ _ _ _ _ _ Hv). reflexivity.
Qed.

Lemma network_failure_fails_without_pause_witness :
  attempt (status_test "en-US" Model sample_client "v0" (VStr "s"))
          (Failed [("code", VStr "ECONNRESET")])
  = ([Issued (request (beforeEach
                 (status_test "en-US" Model sample_client "v0" (VStr "s"))))],
     false).
Proof.
  apply network_failure_fails_without_pause.
  - left. reflexivity.
  - reflexivity.
Defined.

(** *** Requests and pauses of a run *)

Lemma requests_app (a b : list Event) :
  requests (a ++ b)%list = (requests a ++ requests b)%list.
Proof.
  induction a as [|e a IH]; simpl; [reflexivity|].
  destruct e; simpl; rewrite IH; reflexivity.
Qed.

Lemma asleep_app (a b : list Event) :
  asleep (a ++ b)%list = (asleep a + asleep b)%Z.
Proof.
  induction a as [|e a IH]; simpl; [reflexivity|].
  destruct e; rewrite ?IH; lia.
Qed.

Lemma retry_quiet (error : Value) :
  requests (fst (retry error)) = []
  /\ (0 <= asleep (fst (retry error)) <= RETRY_TIMEOUT)%Z.
Proof.
  destruct (retry_cases error)
    as [[e He] | [(summary & message & _ & _ & Hr) | (summary & _ & _ & Hr)]];
    rewrite ?He, ?Hr; cbn; unfold RETRY_TIMEOUT; split;
    first [reflexivity | lia].
Qed.

Lemma poll_quiet (locale : string) (target : Target) (v : string)
    (response : Value) :
  requests (fst (poll locale target v response)) = []
  /\ (0 <= asleep (fst (poll locale target v response)) <= RETRY_TIMEOUT)%Z.
Proof.
  destruct (statusOf locale target v response) as [[status response']|e]
    eqn:Es.
  - rewrite (poll_step _ _ _ _ _ _ Es).
    destruct (strictEquals status (getMember (VObj (READY target)) v));
      cbn; unfold RETRY_TIMEOUT; split; first [reflexivity | lia].
  - rewrite (poll_unreadable _ _ _ _ _ Es). cbn. unfold RETRY_TIMEOUT.
    split; [reflexivity | lia].
Qed.

Lemma status_attempt_quiet (locale : string) (target : Target)
    (client : Client) (v : string) (skillId : Value) (reply : Transport) :
  requests (fst (attempt (status_test locale target client v skillId) reply))
  = [request (beforeEach (status_test locale target client v skillId))]
  /\ (0 <= asleep (fst (attempt (status_test locale target client v skillId)
                               reply)) <= RETRY_TIMEOUT)%Z.
Proof.
  unfold attempt.
  rewrite status_test_onFulfilled, status_test_onRejected.
  destruct (settle (beforeEach (status_test locale target client v skillId))
                   reply) as [x | e].
  - destruct (poll_quiet locale target v x) as [Hr Ha].
    destruct (poll locale target v x) as [trace c]. cbn [fst] in *.
    cbn [requests asleep]. rewrite Hr. auto.
  - destruct (retry_quiet e) as [Hr Ha].
    destruct (retry e) as [trace c]. cbn [fst] in *.
    cbn [requests asleep]. rewrite Hr. auto.
Qed.

(** A status test under [retries] retries asks at least once and at most
    [retries + 1] times, always with the very request of its [beforeEach],
    and spends at most [RETRY_TIMEOUT] asleep per request, whatever the
    service answers. *)
Theorem status_run_is_bounded
    (locale : string) (target : Target) (client : Client) (v : string)
    (skillId : Value) (server : nat -> Transport) (retries n : nat) :
  exists attempts : nat,
    1 <= attempts <= S retries
    /\ requests (fst (run retries (status_test locale target client v skillId)
                          server n))
       = repeat (request (beforeEach
                   (status_test locale target client v skillId))) attempts
    /\ (0 <= asleep (fst (run retries
                            (status_test locale target client v skillId)
                            server n))
          <= Z.of_nat attempts * RETRY_TIMEOUT)%Z.
Proof.
  revert n. induction retries as [|retries IH]; intros n.
  - exists 1. split; [lia|].
    destruct (status_attempt_quiet locale target client v skillId (server n))
      as [Hr Ha].
    cbn [run].
    destruct (attempt (status_test locale target client v skillId) (server n))
      as [trace passed].
    cbn [fst] in *. destruct passed; cbn [fst]; split;
      first [exact Hr | lia].
  - destruct (status_attempt_quiet locale target client v skillId (server n))
      as [Hr Ha].
    destruct (attempt (status_test locale target client v skillId) (server n))
      as [trace passed] eqn:Ea.
    cbn [fst] in *. destruct passed.
    + exists 1. rewrite (run_passed_attempt _ _ _ _ _ Ea). cbn [fst].
      split; [lia|]. split; [exact Hr | lia].
    + destruct (IH (S n)) as (k & Hk & Hreq & Hsl).
      exists (S k). rewrite (run_failed_attempt _ _ _ _ _ Ea). cbn [fst].
      rewrite requests_app, asleep_app, Hr, Hreq.
      split; [lia|]. split; [reflexivity|]. lia.
Qed.

(** *** What a passing skill test has seen *)

(** An attempt of the skill-status test passes only on a reply that
    carries, at the status path of the version, the terminal value of the
    version: no rejection and no other response passes it. *)
Theorem skill_test_passes_only_on_terminal_status
    (client : Client) (v : string) (skillId : Value) (reply : Transport)
    (trace : list Event) :
  In v SUPPORTED_VERSIONS ->
  attempt (skill_status_test client v skillId) reply = (trace, true) ->
  exists response : Response,
    reply = Replied response
    /\ readPath (data response) (status_path "" Skill v)
       = Normal (VStr (terminal_value Skill v))
    /\ trace
       = [ Issued (request (skills_status client skillId));
           ConsoleLog (Text (building_text "Skill"
                               (VStr (terminal_value Skill v)) false)) ].
Proof.
  intros Hv. unfold attempt. destruct reply as [response | error].
  - cbn [settle skill_status_test beforeEach skills_status rest_get
         onFulfilled].
    destruct (statusOf "" Skill v (data response))
      as [[status response']|e] eqn:Es.
    + pose proof (poll_step _ _ _ _ _ _ Es) as Hp. cbn [poll] in Hp.
      rewrite Hp.
      pose proof (statusOf_reads_path "" Skill v (data response) Hv) as Hr.
      rewrite Es in Hr. cbn [cmap cbind fst] in Hr.
      rewrite (terminal_value_table Skill v Hv).
      destruct (strictEquals status (VStr (terminal_value Skill v))) eqn:Eq.
      * apply strictEquals_string in Eq. subst status.
        intros H. injection H as Ht _. exists response.
        split; [reflexivity|].
        split; [symmetry; exact Hr | rewrite <- Ht; reflexivity].
      * cbn [subject_of].
        pose proof (expectation_undefined "" Skill client v skillId Hv) as Hu.
        cbn [status_test] in Hu.
        cbn [skill_status_test expectation] in Hu |- *.
        rewrite Hu. discriminate.
    + pose proof (poll_unreadable _ _ _ _ _ Es) as Hp. cbn [poll] in Hp.
      rewrite Hp. cbn [subject_of].
      pose proof (expectation_rejected "" Skill client v skillId e Hv) as Hu.
      cbn [status_test] in Hu.
      cbn [skill_status_test expectation] in Hu |- *.
      rewrite Hu. discriminate.
  - cbn [settle skill_status_test beforeEach skills_status rest_get
         onRejected].
    rewrite reject_response_of.
    destruct (retry_cases (response_of error))
      as [[e He] | [(summary & message & _ & _ & Hr) | (summary & Hs & _ & Hr)]];
      rewrite ?He, ?Hr; cbn [subject_of].
    + pose proof (expectation_rejected "" Skill client v skillId e Hv) as Hu.
      cbn [status_test skill_status_test expectation] in Hu |- *.
      rewrite Hu. discriminate.
    + pose proof (expectation_undefined "" Skill client v skillId Hv) as Hu.
      cbn [status_test skill_status_test expectation] in Hu |- *.
      rewrite Hu. discriminate.
    + destruct (response_of error); simpl in Hs; try discriminate;
        inversion Hs; subst;
        destruct (supported_cases v Hv) as [-> | ->]; discriminate.
Qed.

Lemma skill_test_passes_only_on_terminal_status_witness :
  exists response : Response,
    Replied (replied (VObj [("manifest",
               VObj [("lastModified", VObj [("status", VStr "SUCCESSFUL")])])]))
    = Replied response
    /\ readPath (data response) (status_path "" Skill "v0")
       = Normal (VStr (terminal_value Skill "v0"))
    /\ [ Issued (request (skills_status sample_client (VStr "s")));
         ConsoleLog (Text "---> Skill building: SUCCESSFUL <---") ]
       = [ Issued (request (skills_status sample_client (VStr "s")));
           ConsoleLog (Text (building_text "Skill"
                               (VStr (terminal_value Skill "v0")) false)) ].
Proof.
  apply (skill_test_passes_only_on_terminal_status
           sample_client "v0" (VStr "s")).
  - left. reflexivity.
  - reflexivity.
Defined.

(** *** The withdrawal test *)

(** A withdrawal that is rejected never passes its test, whatever the
    error: the handler throws, or resolves to [undefined], or returns a
    summary of three properties, and the test expects exactly
    [{etag: undefined, location: undefined}]. *)
Theorem rejected_withdrawal_never_passes
    (client : Client) (skillId reason message : Value) (error : Props) :
  snd (attempt (withdraw_test client skillId reason message) (Failed error))
  = false.
Proof.
  unfold attempt.
  cbn [settle withdraw_test beforeEach skillCertification_withdraw rest_post
       onRejected].
  rewrite reject_response_of.
  destruct (waitOnCertification_cases (response_of error))
    as [(trace & e & Hr & _)
       | [(summary & text & _ & _ & Hr) | (summary & Hs & _ & Hr)]];
    rewrite Hr; cbn [snd subject_of expectation become]; try reflexivity.
  destruct (response_of error); simpl in Hs; try discriminate;
    inversion Hs; reflexivity.
Qed.

(** While the withdrawal is refused with a status other than 200 that
    prints and a payload that can be read and carries a message that
    prints, each attempt dumps the summary, announces the pause, sleeps
    [WITHDRAWAL_TIMEOUT], and, retries remaining, the same withdrawal is
    posted again. *)
Theorem refused_withdrawal_waits_and_posts_again
    (client : Client) (skillId reason message : Value)
    (server : nat -> Transport) (n retries : nat)
    (e : Props) (payload : Value) :
  server n = Failed [("response", VObj e)] ->
  strictEquals (getMember (VObj e) "status") (VNum 200) = false ->
  getMember (VObj e) "data" = payload ->
  payload <> VUndefined -> payload <> VNull ->
  printable (getMember (VObj e) "status") = true ->
  printable (getMember payload "message") = true ->
  run (S retries) (withdraw_test client skillId reason message) server n
  = (Issued (request (skillCertification_withdraw client skillId reason
                        message))
     :: ConsoleLog (Json (VObj [ ("status", getMember (VObj e) "status");
                                 ("statusText",
                                  getMember (VObj e) "statusText");
                                 ("data", payload) ]))
     :: ConsoleLog (Text (operation_status_text (getMember (VObj e) "status")
                            (getMember payload "message") WITHDRAWAL_TIMEOUT))
     :: Slept WITHDRAWAL_TIMEOUT
     :: fst (run retries (withdraw_test client skillId reason message)
                 server (S n)),
     snd (run retries (withdraw_test client skillId reason message)
              server (S n)))
  /\ exists rest,
       fst (run retries (withdraw_test client skillId reason message)
                server (S n))
       = Issued (request (skillCertification_withdraw client skillId reason
                            message)) :: rest.
Proof.
  intros Hn Hs Hd Hu Hnull Hps Hpm. split.
  - rewrite (run_failed_attempt _ _ _ _
      [ Issued (request (skillCertification_withdraw client skillId reason
                           message));
        ConsoleLog (Json (VObj [ ("status", getMember (VObj e) "status");
                                 ("statusText",
                                  getMember (VObj e) "statusText");
                                 ("data", payload) ]));
        ConsoleLog (Text (operation_status_text (getMember (VObj e) "status")
                            (getMember payload "message")
                            WITHDRAWAL_TIMEOUT));
        Slept WITHDRAWAL_TIMEOUT ]); [reflexivity|].
    rewrite Hn. unfold attempt.
    cbn [settle withdraw_test beforeEach skillCertification_withdraw
         rest_post onRejected].
    rewrite reject_response_of.
    replace (response_of [("response", VObj e)]) with (VObj e)
      by reflexivity.
    rewrite (waitOnCertification_waits e payload Hs Hd Hu Hnull Hps Hpm).
    reflexivity.
  - exact (run_issues (withdraw_test client skillId reason message)
                      server (S n) retries).
Qed.

Lemma refused_withdrawal_waits_and_posts_again_witness :
  asleep (fst (run 1 (withdraw_test sample_client (VStr "s")
                        (VStr "OTHER_REASON") (VStr "not now"))
                   (fun _ => Failed [("response", certification_in_progress)])
                   0))
  = (2 * WITHDRAWAL_TIMEOUT)%Z.
Proof.
  pose proof
    (refused_withdrawal_waits_and_posts_again sample_client (VStr "s")
       (VStr "OTHER_REASON") (VStr "not now")
       (fun _ => Failed [("response", certification_in_progress)]) 0 0
       [ ("status", VNum 400); ("statusText", VStr "Bad Request");
         ("data", VObj [("message", VStr "Skill is being certified")]) ]
       (VObj [("message", VStr "Skill is being certified")])
       eq_refl eq_refl eq_refl
       ltac:(discriminate) ltac:(discriminate) eq_refl eq_refl)
    as [Hrun _].
  rewrite Hrun. reflexivity.
Defined.

(** A withdrawal that succeeds with no [location] and [etag] header and a
    body without properties passes at the first attempt, with one
    request. *)
Theorem accepted_withdrawal_passes
    (client : Client) (skillId reason message : Value)
    (response : Response) (server : nat -> Transport) (n retries : nat) :
  server n = Replied response ->
  lookup "location" (headers response) = None ->
  lookup "etag" (headers response) = None ->
  ownEnumerable (data response) = [] ->
  run retries (withdraw_test client skillId reason message) server n
  = ([Issued (request (skillCertification_withdraw client skillId reason
                         message))],
     true).
Proof.
  intros Hn Hl He Hb. apply run_passed_attempt. rewrite Hn.
  unfold attempt.
  cbn [settle withdraw_test beforeEach skillCertification_withdraw rest_post
       onFulfilled].
  unfold Object_assign. cbn [fold_left].
  unfold assign1 at 1. rewrite Hb. cbn [fold_left].
  rewrite location_etag_headers. unfold header. rewrite Hl, He.
  reflexivity.
Qed.

Lemma accepted_withdrawal_passes_witness :
  run MAX_RETRIES (withdraw_test sample_client (VStr "s")
                     (VStr "OTHER_REASON") (VStr "not now"))
      (fun _ => Replied (mkResponse 204 "No Content" [] (VStr ""))) 0
  = ([Issued (request (skillCertification_withdraw sample_client (VStr "s")
                         (VStr "OTHER_REASON") (VStr "not now")))],
     true).
Proof.
  apply (accepted_withdrawal_passes sample_client (VStr "s")
           (VStr "OTHER_REASON") (VStr "not now")
           (mkResponse 204 "No Content" [] (VStr "")));
    reflexivity.
Defined.

(* ================================================================== *)
(** ** Repeating a call on the same object *)
(* ================================================================== *)

(** [intentRequests.list] cannot be repeated on the object it was given:
    the first call takes the [skillId] out of it, so a second call with the
    same object asks for the history of the skill [undefined].  Without
    any object the call throws before it requests anything. *)
Theorem intentRequests_list_is_not_repeatable (o : Props) (skillId : Value) :
  lookup "skillId" o = Some skillId ->
  exists after : Props,
    intentRequests_list (VObj o)
      = Normal (VObj after,
                rest_get (VStr ("/v1/skills/" ++ toStr skillId
                                ++ "/history/intentRequests"))
                         (VObj after))
    /\ intentRequests_list (VObj after)
       = Normal (VObj after,
                 rest_get (VStr "/v1/skills/undefined/history/intentRequests")
                          (VObj after))
    /\ intentRequests_list VUndefined = Thrown TypeError
    /\ intentRequests_list VNull = Thrown TypeError.
Proof.
  intros Hs. exists (remove "skillId" o). split; [|split].
  - unfold intentRequests_list. rewrite getProp_object.
    rewrite (getMember_own _ _ _ Hs). reflexivity.
  - apply intentRequests_list_without_skillId. apply lookup_remove_same.
  - split; reflexivity.
Qed.

Lemma intentRequests_list_is_not_repeatable_witness :
  exists after : Props,
    intentRequests_list (VObj [("skillId", VStr "s"); ("locale", VStr "en-US")])
      = Normal (VObj after,
                rest_get (VStr ("/v1/skills/" ++ toStr (VStr "s")
                                ++ "/history/intentRequests"))
                         (VObj after))
    /\ intentRequests_list (VObj after)
       = Normal (VObj after,
                 rest_get (VStr "/v1/skills/undefined/history/intentRequests")
                          (VObj after))
    /\ intentRequests_list VUndefined = Thrown TypeError
    /\ intentRequests_list VNull = Thrown TypeError.
Proof.
  apply (intentRequests_list_is_not_repeatable
           [("skillId", VStr "s"); ("locale", VStr "en-US")] (VStr "s")).
  reflexivity.
Defined.

(* ================================================================== *)
(** ** Regions the table knows, and regions it does not *)
(* ================================================================== *)

Lemma region_recognised_witness :
  exists smapi : Client,
    alexaSMAPI (VObj [("region", VStr "FE")]) = Normal smapi
    /\ baseURL (client smapi) = VStr "https://api.fe.amazonalexa.com".
Proof.
  apply (region_recognised (VObj [("region", VStr "FE")])).
  - discriminate.
  - reflexivity.
Defined.

Lemma region_fallback_witness :
  exists smapi : Client,
    alexaSMAPI (VObj [("region", VStr "AU")]) = Normal smapi
    /\ baseURL (client smapi) = VStr "https://api.amazonalexa.com".
Proof.
  apply (region_fallback (VObj [("region", VStr "AU")])).
  - discriminate.
  - reflexivity.
  - reflexivity.
Defined.

(* ================================================================== *)
(** ** Polling the response again *)
(* ================================================================== *)

Lemma modelStatus_object
    (locale : string) (r im entry : Props) :
  lookup "interactionModel" r = Some (VObj im) ->
  lookup locale im = Some (VObj entry) ->
  modelStatus locale VERSION_1 (VObj r)
  = cbind (getProp (getMember (VObj entry) "lastUpdateRequest") "status")
      (fun status =>
         Normal (status,
                 VObj (store "interactionModel"
                         (VObj (store locale (VObj (remove "eTag" entry)) im))
                         r))).
Proof.
  intros Hr Him. unfold modelStatus.
  cbn [String.eqb Ascii.eqb Bool.eqb VERSION_0 VERSION_1].
  rewrite getProp_object, (getMember_own _ _ _ Hr). cbn [cbind].
  rewrite getProp_object, (getMember_own _ _ _ Him). cbn [cbind].
  rewrite getProp_object. cbn [cbind].
  destruct (getProp (getMember (VObj entry) "lastUpdateRequest") "status");
    cbn [cbind deleteProp]; [|reflexivity].
  unfold write_back. rewrite Hr, Him. reflexivity.
Qed.

Lemma lookup_store_same (k : string) (v : Value) (o : Props) :
  lookup k (store k v o) = Some v.
Proof. rewrite lookup_store, String.eqb_refl. reflexivity. Qed.

(** Under the current version the model poller is idempotent on what it
    returns: the response it hands back has no [eTag] in the locale's
    entry, and polling that response again reads the same status, changes
    nothing more and ends the same way. *)
Theorem model_poll_is_idempotent
    (locale : string) (r im entry : Props) (status response' : Value) :
  lookup "interactionModel" r = Some (VObj im) ->
  lookup locale im = Some (VObj entry) ->
  modelStatus locale VERSION_1 (VObj r) = Normal (status, response') ->
  modelStatus locale VERSION_1 response' = Normal (status, response')
  /\ waitOnModel locale VERSION_1 response'
     = waitOnModel locale VERSION_1 (VObj r)
  /\ readPath response' ["interactionModel"; locale; "eTag"]
     = Normal VUndefined.
Proof.
  intros Hr Him Hs.
  pose proof Hs as Hs0.
  rewrite (modelStatus_object locale r im entry Hr Him) in Hs.
  destruct (getProp (getMember (VObj entry) "lastUpdateRequest") "status")
    as [st|] eqn:Est; cbn [cbind] in Hs; [|discriminate].
  injection Hs as Hst Hresp. subst st.
  set (entry' := remove "eTag" entry) in *.
  set (im' := store locale (VObj entry') im) in *.
  set (r' := store "interactionModel" (VObj im') r) in *.
  assert (Hr' : lookup "interactionModel" r' = Some (VObj im'))
    by apply lookup_store_same.
  assert (Him' : lookup locale im' = Some (VObj entry'))
    by apply lookup_store_same.
  assert (He' : lookup "eTag" entry' = None) by apply lookup_remove_same.
  assert (Hagain : modelStatus locale VERSION_1 response'
                   = Normal (status, response')).
  { rewrite <- Hresp.
    rewrite (modelStatus_object locale r' im' entry' Hr' Him').
    replace (getMember (VObj entry') "lastUpdateRequest")
      with (getMember (VObj entry) "lastUpdateRequest").
    - rewrite Est. cbn [cbind].
      rewrite (remove_absent _ _ He').
      rewrite (store_same _ _ _ Him'), (store_same _ _ _ Hr').
      reflexivity.
    - unfold getMember. cbn [getOwn]. unfold entry'.
      rewrite lookup_remove_other by discriminate. reflexivity. }
  split; [exact Hagain|]. split.
  - unfold waitOnModel. rewrite Hagain, Hs0. reflexivity.
  - rewrite <- Hresp. cbn [readPath].
    rewrite getProp_object, (getMember_own _ _ _ Hr'). cbn [cbind].
    rewrite getProp_object, (getMember_own _ _ _ Him'). cbn [cbind].
    rewrite getProp_object. unfold getMember. cbn [getOwn].
    rewrite He'. reflexivity.
Qed.

Lemma model_poll_is_idempotent_witness :
  modelStatus "en-US" VERSION_1 built_model_without_eTag
    = Normal (VStr "SUCCEEDED", built_model_without_eTag)
  /\ waitOnModel "en-US" VERSION_1 built_model_without_eTag
     = waitOnModel "en-US" VERSION_1 built_model_with_eTag
  /\ readPath built_model_without_eTag ["interactionModel"; "en-US"; "eTag"]
     = Normal VUndefined.
Proof.
  apply (model_poll_is_idempotent "en-US"
           [("interactionModel",
             VObj [("en-US",
               VObj [ ("eTag", VStr "a1b2c3");
                      ("lastUpdateRequest",
                       VObj [("status", VStr "SUCCEEDED")]) ])])]
           [("en-US",
             VObj [ ("eTag", VStr "a1b2c3");
                    ("lastUpdateRequest",
                     VObj [("status", VStr "SUCCEEDED")]) ])]
           [ ("eTag", VStr "a1b2c3");
             ("lastUpdateRequest", VObj [("status", VStr "SUCCEEDED")]) ]
           (VStr "SUCCEEDED") built_model_without_eTag);
    reflexivity.
Defined.

(* ================================================================== *)
(** ** The custom tests against the catalogue tests *)
(* ================================================================== *)

(** When the client speaks the version under test, each custom test makes
    the very call of the catalogue test it mirrors: the urls the suite
    writes out by hand are the urls the catalogue builds, with the same
    verb, the same body and the same treatment of the reply. *)
Theorem custom_calls_match_the_catalogue
    (inst : Instance) (v : string)
    (skillId stage locale model linking : Value) :
  In v SUPPORTED_VERSIONS ->
  update_model_call (mkClient (VStr v) inst) v skillId stage locale model
    = custom_update_model_call v skillId stage locale model
  /\ head_model_call (mkClient (VStr v) inst) v skillId stage locale
     = Some (custom_head_model_call v skillId stage locale)
  /\ model_status_call (mkClient (VStr v) inst) skillId locale
     = custom_model_status_call v skillId locale
  /\ update_linking_call (mkClient (VStr v) inst) v skillId stage linking
     = Some (custom_update_linking_call v skillId stage linking)
  /\ delete_linking_call skillId stage
     = custom_delete_linking_call skillId stage.
Proof.
  intros Hv. destruct (supported_cases v Hv) as [-> | ->]; repeat split.
Qed.

Lemma custom_calls_match_the_catalogue_witness :
  update_model_call sample_client "v1" (VStr "s") (VStr "development")
      (VStr "en-US") (VObj [])
  = custom_update_model_call "v1" (VStr "s") (VStr "development")
      (VStr "en-US") (VObj []).
Proof.
  exact (proj1 (custom_calls_match_the_catalogue
                  (client sample_client) "v1" (VStr "s") (VStr "development")
                  (VStr "en-US") (VObj []) VUndefined
                  (or_intror (or_introl eq_refl)))).
Defined.
